(** * simpleStore: state bindings over browser and extension storage

    A shallow embedding of [src/useSimpleStore.ts], which holds the two
    modules of the repository:

    - [useSimpleStore], a React hook mirroring one state value into
      [localStorage] / [sessionStorage];
    - [getFromChromeStore] and [useChromeStore], a one-shot read and a hook
      over [chrome.storage.local] / [chrome.storage.session].

    Conventions of the embedding.

    - JavaScript data is the inductive [Json]; [JSValue] adds [undefined]
      and the few other things a state cell can come to hold.  Numbers are
      the integer-valued ones, held as [Z].
    - A property read [o[key]] on a plain object finds the object's own
      property or, failing that, the member of [Object.prototype] of that
      name ([Property], [Read]).
    - A JavaScript expression that may throw returns a [Completion].
    - [JSON.parse] and [JSON.stringify] belong to the host, not to the
      repository: the hooks are defined over the interface [JSONHost] and the
      general theorems hold for every host.  [Module RefHost] gives one
      executable host, used to evaluate the scenarios.
    - A storage area is a finite map ([gmap]) from keys to raw entries.  The
      storage areas are taken without a quota, so a write always lands.
    - A hook is split the way React runs it: the [useState] initialiser, the
      callbacks registered by [useEffect], and the setter closure, which
      captures the [value] of the render that created it. *)

From Stdlib Require Import ZArith Ascii String List.
From stdpp Require Import base option strings gmap pretty.

Local Open Scope string_scope.
Local Open Scope Z_scope.

(** ** JavaScript data *)

#[warnings="-register-all"]
Inductive Json : Type :=
| JNull
| JBool (b : bool)
| JNum (n : Z)
| JStr (s : string)
| JArr (items : list Json)
| JObj (fields : list (string * Json)).

Inductive JSError : Type :=
| SyntaxError (msg : string)
| TypeError (msg : string).

(** A runtime value: JSON-like data or [undefined], and what else a state
    cell can come to hold when a member of [Object.prototype] reaches the
    state setter: the wrapper object [Object(p)] of a primitive [p], the
    object [Object.prototype] itself, or no value at all, when the updater
    that computes the cell throws [e] and the render fails with it. *)
Inductive JSValue : Type :=
| JUndefined
| JData (j : Json)
| JBoxed (p : Json)
| JPrototype
| JRenderFails (e : JSError).

Coercion JData : Json >-> JSValue.

(** [error instanceof SyntaxError] *)
Definition instanceof_SyntaxError (e : JSError) : bool :=
  match e with
  | SyntaxError _ => true
  | TypeError _ => false
  end.

(** The outcome of evaluating an expression: a value, or a thrown error. *)
Inductive Completion (A : Type) : Type :=
| Normal (a : A)
| Throw (e : JSError).

Arguments Normal {A} a.
Arguments Throw {A} e.

(** The host's [JSON] object.  [JSON_parse] takes any value, as the
    extension hook hands it whatever the storage area holds. *)
Class JSONHost : Type := {
  JSON_parse : JSValue -> Completion Json;
  JSON_stringify : Json -> string
}.

(** *** Property reads on plain objects

    The objects that [chrome.storage] hands to callbacks and listeners are
    plain objects, so [o[key]] finds the members of [Object.prototype] where
    [o] has no own property [key]. *)

Definition prototype_members : list string :=
  ["constructor"; "__defineGetter__"; "__defineSetter__"; "hasOwnProperty";
   "__lookupGetter__"; "__lookupSetter__"; "isPrototypeOf";
   "propertyIsEnumerable"; "toString"; "valueOf"; "__proto__";
   "toLocaleString"].

Definition is_prototype_member (key : string) : bool :=
  bool_decide (key ∈ prototype_members).

(** [o[key]] on a plain object with the own properties [o]. *)
Inductive Property (A : Type) : Type :=
| Own (a : A)
| Inherited (name : string)
| Missing.

Arguments Own {A} a.
Arguments Inherited {A} name.
Arguments Missing {A}.

Definition property {A : Type} (o : gmap string A) (key : string)
  : Property A :=
  match o !! key with
  | Some a => Own a
  | None => if is_prototype_member key then Inherited key else Missing
  end.

(** [o[key]] where the own properties hold data: a value, [undefined]
    included, or an inherited member. *)
Inductive Read : Type :=
| ReadValue (v : JSValue)
| ReadInherited (name : string).

Coercion ReadValue : JSValue >-> Read.

(** [Object(value)]. *)
Definition to_object (v : JSValue) : JSValue :=
  match v with
  | JUndefined => JData (JObj [])
  | JData JNull => JData (JObj [])
  | JData (JBool b) => JBoxed (JBool b)
  | JData (JNum n) => JBoxed (JNum n)
  | JData (JStr s) => JBoxed (JStr s)
  | _ => v
  end.

Definition is_object (v : JSValue) : bool :=
  match v with
  | JData (JArr _) | JData (JObj _) | JBoxed _ | JPrototype => true
  | _ => false
  end.

(** [Object.prototype[name](arg)] for the function members, called as React
    calls an updater, with no [this]: [Object] converts its argument,
    [toString] names the missing [this], [isPrototypeOf] answers [false] for
    a primitive before it looks at [this], and the others fail on the
    missing [this]. *)
Definition call_inherited (name : string) (arg : JSValue)
  : Completion JSValue :=
  if String.eqb name "constructor" then Normal (to_object arg)
  else if String.eqb name "toString" then
    Normal (JData (JStr "[object Undefined]"))
  else if String.eqb name "isPrototypeOf" && negb (is_object arg) then
    Normal (JData (JBool false))
  else Throw (TypeError "Cannot convert undefined or null to object").

(** The text [ToString] gives for an inherited member: the source text of
    a built-in function, or [[object Object]] for the prototype object. *)
Definition inherited_text (name : string) : string :=
  if String.eqb name "__proto__" then "[object Object]"
  else "function "
       ++ (if String.eqb name "constructor" then "Object" else name)
       ++ "() { [native code] }".

(** The argument of a setter, [React.SetStateAction<T>]:
    [valueAction instanceof Function] tells the two cases apart. *)
Inductive SetStateAction (S : Type) : Type :=
| Literal (v : Json)
| Updater (f : S -> Json).

Arguments Literal {S} v.
Arguments Updater {S} f.

(** An optional [persist] argument, [None] when the caller omits it. *)
Definition with_default (dflt : bool) (persist : option bool) : bool :=
  match persist with
  | Some b => b
  | None => dflt
  end.

(** ** The browser-storage binding, [useSimpleStore] *)

Module SimpleStore.

(** [localStorage] and [sessionStorage]: keys to raw texts. *)
Record Window : Type := {
  localStorage : gmap string string;
  sessionStorage : gmap string string
}.

(** [storage.getItem(key)]; [None] stands for [null]. *)
Definition getItem (storage : gmap string string) (key : string)
  : option string :=
  storage !! key.

Definition setItem (storage : gmap string string) (key text : string)
  : gmap string string :=
  <[key := text]> storage.

(** [persist: boolean = true] *)
Definition persist_arg (persist : option bool) : bool :=
  with_default true persist.

(** [const storage = persist ? localStorage : sessionStorage] *)
Definition storage (persist : bool) (w : Window) : gmap string string :=
  if persist then localStorage w else sessionStorage w.

(** Writing through the [storage] reference updates the selected area. *)
Definition with_storage (persist : bool) (w : Window)
    (m : gmap string string) : Window :=
  if persist
  then {| localStorage := m; sessionStorage := sessionStorage w |}
  else {| localStorage := localStorage w; sessionStorage := m |}.

(** A string used as a condition: the empty text is falsy. *)
Definition truthy (s : string) : bool :=
  match s with
  | EmptyString => false
  | String _ _ => true
  end.

(** The [storage] event delivered to the listener. *)
Record StorageEvent : Type := {
  ev_key : option string;
  ev_newValue : option string
}.

Section Hook.
Context `{JSONHost}.

(** The [useState] initialiser (lines 10-13). *)
Definition initialValue (key : string) (defaultValue : Json)
    (persist : bool) (w : Window) : Completion Json :=
  match getItem (storage persist w) key with
  | Some storedValue =>
      if truthy storedValue
      then JSON_parse (JStr storedValue)
      else Normal defaultValue
  | None => Normal defaultValue
  end.

(** [handleStorageChange] (lines 16-21): the listener takes no
    parameter, so the event is ignored; the result is the state
    after the call, or the error thrown out of the listener. *)
Definition handleStorageChange (key : string) (persist : bool)
    (_event : StorageEvent) (w : Window) (value : Json)
  : Completion Json :=
  match getItem (storage persist w) key with
  | Some storedValue => JSON_parse (JStr storedValue)
  | None => Normal value
  end.

(** [setStoredValue] (lines 28-35), closed over the [value] of its
    render: the next state and the window after the write. *)
Definition setStoredValue (key : string) (persist : bool) (value : Json)
    (valueAction : SetStateAction Json) (w : Window) : Json * Window :=
  let valueToStore :=
    match valueAction with
    | Updater f => f value
    | Literal v => v
    end in
  (valueToStore,
   with_storage persist w
     (setItem (storage persist w) key (JSON_stringify valueToStore))).

(** [useSimpleStore(key, defaultValue, persist)] on a render whose state
    cell holds [value]: the pair [[value, setStoredValue]]. *)
Definition useSimpleStore (key : string) (persist : option bool)
    (value : Json)
  : Json * (SetStateAction Json -> Window -> Json * Window) :=
  (value, setStoredValue key (persist_arg persist) value).

(** The first render: the initialiser fills the state cell. *)
Definition mount (key : string) (defaultValue : Json)
    (persist : option bool) (w : Window) : Completion Json :=
  initialValue key defaultValue (persist_arg persist) w.

(** The listener that the effect registers for the hook's arguments. *)
Definition listener (key : string) (persist : option bool)
  : StorageEvent -> Window -> Json -> Completion Json :=
  handleStorageChange key (persist_arg persist).

(** A setter call followed by the re-render it schedules: the state cell
    and the window after the call made through the current render. *)
Definition call_setter (key : string) (persist : option bool)
    (valueAction : SetStateAction Json) (st : Json * Window)
  : Json * Window :=
  snd (useSimpleStore key persist (fst st)) valueAction (snd st).

End Hook.

End SimpleStore.

(** ** The extension-storage module: [getFromChromeStore], [useChromeStore] *)

Module ChromeStore.

(** [chrome.storage.local] and [chrome.storage.session]: keys to items.
    An area holds JSON-like data of any shape, never [undefined]. *)
Record Chrome : Type := {
  local : gmap string Json;
  session : gmap string Json
}.

(** [storage.get(keys, callback)]: the object handed to the callback
    holds the requested keys that the area has. *)
Definition get (area : gmap string Json) (keys : list string)
  : gmap string Json :=
  filter (λ kv, kv.1 ∈ keys) area.

(** [storage.set(items)] once the write has landed. *)
Definition set (area items : gmap string Json) : gmap string Json :=
  items ∪ area.

(** [result[key]]: the own property, else the member of
    [Object.prototype] of that name, else [undefined]. *)
Definition prop (o : gmap string Json) (key : string) : Read :=
  match property o key with
  | Own j => ReadValue (JData j)
  | Inherited name => ReadInherited name
  | Missing => ReadValue JUndefined
  end.

(** [persist: boolean = false] *)
Definition persist_arg (persist : option bool) : bool :=
  with_default false persist.

(** [const storage = persist ? chrome.storage.local : chrome.storage.session] *)
Definition storage (persist : bool) (c : Chrome) : gmap string Json :=
  if persist then local c else session c.

Definition with_storage (persist : bool) (c : Chrome)
    (m : gmap string Json) : Chrome :=
  if persist
  then {| local := m; session := session c |}
  else {| local := local c; session := m |}.

(** [chrome.storage.StorageChange]; either field may be missing. *)
Record StorageChange : Type := {
  oldValue : JSValue;
  newValue : JSValue
}.

(** One [chrome.storage.onChanged] event. *)
Record ChangeEvent : Type := {
  changes : gmap string StorageChange;
  areaName : string
}.

(** The state of a promise. *)
Inductive Promise (A : Type) : Type :=
| Pending
| Fulfilled (a : A)
| Rejected (e : JSError).

Arguments Pending {A}.
Arguments Fulfilled {A} a.
Arguments Rejected {A} e.

(** The two [useState] cells of [useChromeStore]. *)
Record State : Type := {
  value : JSValue;
  hasLoaded : bool
}.

Definition setValue (v : JSValue) (st : State) : State :=
  {| value := v; hasLoaded := hasLoaded st |}.

Definition setHasLoaded (b : bool) (st : State) : State :=
  {| value := value st; hasLoaded := b |}.

(** [setValue(x)] for something read from an object.  React takes a
    function for an updater and calls it on the previous state; an updater
    that throws fails the render.  [__proto__] reads as the prototype
    object, which is stored like any other value. *)
Definition setValue_read (x : Read) (st : State) : State :=
  match x with
  | ReadValue v => setValue v st
  | ReadInherited name =>
      if String.eqb name "__proto__" then setValue JPrototype st
      else
        match call_inherited name (value st) with
        | Normal v => setValue v st
        | Throw e => setValue (JRenderFails e) st
        end
  end.

(** The area a binding is configured for, as [onChanged] names it:
    durable with [local], session-scoped with [session]. *)
Definition expected_area (persist : bool) : string :=
  if persist then "local" else "session".

(** The condition of the handler's outer [if] (lines 127-130). *)
Definition area_matches (persist : bool) (areaName : string) : bool :=
  (persist && String.eqb areaName "local")
  || (negb persist && String.eqb areaName "session").

Section Hook.
Context `{JSONHost}.

(** [JSON.parse(x)] for something read from an object.  [JSON.parse]
    converts its argument to a text first; an inherited member converts to
    [inherited_text], which begins no JSON text, so the call throws a
    [SyntaxError] on every host. *)
Definition JSON_parse_read (x : Read) : Completion Json :=
  match x with
  | ReadValue v => JSON_parse v
  | ReadInherited name =>
      Throw (SyntaxError ("Unexpected token in JSON: " ++ inherited_text name))
  end.

(** [x !== undefined] *)
Definition is_undefined (x : Read) : bool :=
  match x with
  | ReadValue JUndefined => true
  | _ => false
  end.

(** The callback given to [storage.get] in [getFromChromeStore]
    (lines 67-82), started from a pending promise. *)
Definition fetch_callback (key : string) (defaultValue : Json)
    (result : gmap string Json) (_ : Promise Json) : Promise Json :=
  if is_undefined (prop result key) then Fulfilled defaultValue
  else
    match JSON_parse_read (prop result key) with
    | Normal value => Fulfilled value
    | Throw _error => Fulfilled defaultValue
    end.

(** [getFromChromeStore(key, defaultValue, persist)] (lines 59-84):
    the promise once the host has run the callback. *)
Definition getFromChromeStore (key : string) (defaultValue : Json)
    (persist : option bool) (c : Chrome) : Promise Json :=
  let storage := storage (persist_arg persist) c in
  fetch_callback key defaultValue (get storage [key]) Pending.

(** The first render of [useChromeStore] (lines 100-101). *)
Definition initialState (defaultValue : Json) : State :=
  {| value := defaultValue; hasLoaded := false |}.

(** The callback of the initial read (lines 107-117). *)
Definition read_callback (key : string) (result : gmap string Json)
    (st : State) : State :=
  let st' :=
    if is_undefined (prop result key) then st
    else
      match JSON_parse_read (prop result key) with
      | Normal parsed => setValue parsed st
      | Throw _error => setValue_read (prop result key) st
      end in
  setHasLoaded true st'.

(** The first effect (lines 105-118), at the completion of the read. *)
Definition initialRead (key : string) (persist : bool) (c : Chrome)
    (st : State) : State :=
  read_callback key (get (storage persist c) [key]) st.

(** [changes[key].newValue] once [changes[key]] is truthy: the field of
    the own change record; an inherited member is truthy too and has no
    such property. *)
Definition newValue_of (change : Property StorageChange) : JSValue :=
  match change with
  | Own change => newValue change
  | Inherited _ | Missing => JUndefined
  end.

(** [if (changes[key])] *)
Definition truthy_change (change : Property StorageChange) : bool :=
  match change with
  | Own _ | Inherited _ => true
  | Missing => false
  end.

(** [handleStorageChange] (lines 122-147). *)
Definition handleStorageChange (key : string) (persist : bool)
    (ev : ChangeEvent) (st : State) : State :=
  if area_matches persist (areaName ev) then
    if truthy_change (property (changes ev) key) then
      let newValue := newValue_of (property (changes ev) key) in
      match JSON_parse newValue with
      | Normal parsed => setValue parsed st
      | Throw error =>
          if instanceof_SyntaxError error
          then setValue newValue st
          else st
      end
    else st
  else st.

(** [setStoredValue] (lines 156-163), closed over the [value] of its
    render; the asynchronous write is taken at its completion. *)
Definition setStoredValue (key : string) (persist : bool)
    (value : JSValue) (valueAction : SetStateAction JSValue)
    (st : State) (c : Chrome) : State * Chrome :=
  let valueToStore :=
    match valueAction with
    | Updater f => f value
    | Literal v => v
    end in
  (setValue valueToStore st,
   with_storage persist c
     (set (storage persist c)
          {[ key := JStr (JSON_stringify valueToStore) ]})).

(** [useChromeStore(key, defaultValue, persist)] on a render whose
    state cells hold [st]: [[value, setStoredValue, hasLoaded]]. *)
Definition useChromeStore (key : string) (persist : option bool)
    (st : State)
  : JSValue * (SetStateAction JSValue -> Chrome -> State * Chrome) * bool :=
  (value st,
   fun valueAction c =>
     setStoredValue key (persist_arg persist) (value st) valueAction st c,
   hasLoaded st).

(** The first render followed by the completion of the initial read. *)
Definition mount (key : string) (defaultValue : Json)
    (persist : option bool) (c : Chrome) : State :=
  initialRead key (persist_arg persist) c (initialState defaultValue).

(** The listener that the second effect registers. *)
Definition listener (key : string) (persist : option bool)
  : ChangeEvent -> State -> State :=
  handleStorageChange key (persist_arg persist).

(** A run of change events delivered to the listener, oldest first. *)
Definition deliver (key : string) (persist : option bool)
    (evs : list ChangeEvent) (st : State) : State :=
  fold_left (fun s ev => listener key persist ev s) evs st.

End Hook.

End ChromeStore.


(** ** A reference host for [JSON]

    An executable [JSON.stringify] and [JSON.parse] for the data of [Json],
    after ECMA-404 and the ECMAScript definition of [JSON], within these
    bounds: number literals are the integer ones (a fraction or an exponent
    part is outside the fragment and is refused), texts are byte strings,
    a [\u] escape names a code below 256, and an object is the list of its
    members in the order of the text, duplicates kept. *)

Module RefHost.

Definition dquote : ascii := "034"%char.
Definition backslash : ascii := "092"%char.

Definition hex_digit (n : N) : ascii :=
  ascii_of_N (if (n <? 10)%N then 48 + n else 87 + n)%N.

(** [QuoteJSONString] on one character. *)
Definition escape_char (c : ascii) : string :=
  let n := N_of_ascii c in
  if Ascii.eqb c dquote then String backslash (String dquote "")
  else if Ascii.eqb c backslash then String backslash (String backslash "")
  else if (n =? 8)%N then String backslash "b"
  else if (n =? 9)%N then String backslash "t"
  else if (n =? 10)%N then String backslash "n"
  else if (n =? 12)%N then String backslash "f"
  else if (n =? 13)%N then String backslash "r"
  else if (n <? 32)%N then
    String backslash
      ("u00" ++ String (hex_digit (n / 16)) (String (hex_digit (n mod 16)) ""))
  else String c "".

Fixpoint escape (s : string) : string :=
  match s with
  | EmptyString => ""
  | String c r => escape_char c ++ escape r
  end.

Definition quote (s : string) : string :=
  String dquote (escape s) ++ String dquote "".

(** [JSON.stringify(value)] without indentation. *)
Fixpoint stringify (j : Json) : string :=
  match j with
  | JNull => "null"
  | JBool true => "true"
  | JBool false => "false"
  | JNum n => pretty n
  | JStr s => quote s
  | JArr items =>
      let fix elements (l : list Json) : string :=
        match l with
        | [] => ""
        | x :: r =>
            match r with
            | [] => stringify x
            | _ :: _ => stringify x ++ "," ++ elements r
            end
        end in
      "[" ++ elements items ++ "]"
  | JObj fields =>
      let fix members (l : list (string * Json)) : string :=
        match l with
        | [] => ""
        | (k, x) :: r =>
            match r with
            | [] => quote k ++ ":" ++ stringify x
            | _ :: _ => quote k ++ ":" ++ stringify x ++ "," ++ members r
            end
        end in
      "{" ++ members fields ++ "}"
  end.

(** [ToString(value)], applied by [JSON.parse] to its argument. *)
Fixpoint ToString_data (j : Json) : string :=
  match j with
  | JNull => "null"
  | JBool true => "true"
  | JBool false => "false"
  | JNum n => pretty n
  | JStr s => s
  | JArr items =>
      let element (x : Json) : string :=
        match x with
        | JNull => ""
        | _ => ToString_data x
        end in
      let fix joined (l : list Json) : string :=
        match l with
        | [] => ""
        | x :: r =>
            match r with
            | [] => element x
            | _ :: _ => element x ++ "," ++ joined r
            end
        end in
      joined items
  | JObj _ => "[object Object]"
  end.

Definition ToString (v : JSValue) : string :=
  match v with
  | JUndefined => "undefined"
  | JData j => ToString_data j
  | JBoxed p => ToString_data p
  | JPrototype => "[object Object]"
  | JRenderFails _ => ""
  end.

(** *** The parser *)

Definition is_ws (c : ascii) : bool :=
  let n := N_of_ascii c in
  (n =? 32)%N || (n =? 9)%N || (n =? 10)%N || (n =? 13)%N.

Definition is_digit (c : ascii) : bool :=
  let n := N_of_ascii c in (48 <=? n)%N && (n <=? 57)%N.

Definition digit_value (c : ascii) : Z := Z.of_N (N_of_ascii c) - 48.

Definition hex_value (c : ascii) : option N :=
  let n := N_of_ascii c in
  if (48 <=? n)%N && (n <=? 57)%N then Some (n - 48)%N
  else if (97 <=? n)%N && (n <=? 102)%N then Some (n - 87)%N
  else if (65 <=? n)%N && (n <=? 70)%N then Some (n - 55)%N
  else None.

Fixpoint skip_ws (cs : list ascii) : list ascii :=
  match cs with
  | c :: r => if is_ws c then skip_ws r else cs
  | [] => []
  end.

(** The digits at the head of [cs], folded into [acc]. *)
Fixpoint digits (cs : list ascii) (acc : Z) : Z * list ascii :=
  match cs with
  | c :: r => if is_digit c then digits r (10 * acc + digit_value c) else (acc, cs)
  | [] => (acc, [])
  end.

(** A number may not run on into a fraction or an exponent here. *)
Definition ends_number (cs : list ascii) : bool :=
  match cs with
  | c :: _ =>
      negb (Ascii.eqb c "." || Ascii.eqb c "e" || Ascii.eqb c "E")%char
  | [] => true
  end.

(** [int]: a lone zero, or a nonzero digit and more digits. *)
Definition parse_nat (cs : list ascii) : option (Z * list ascii) :=
  match cs with
  | c :: r =>
      if Ascii.eqb c "0"%char then
        if ends_number r then Some (0, r) else None
      else if is_digit c then
        let '(n, rest) := digits cs 0 in
        if ends_number rest then Some (n, rest) else None
      else None
  | [] => None
  end.

Definition parse_number (cs : list ascii) : option (Json * list ascii) :=
  match cs with
  | c :: r =>
      if Ascii.eqb c "-"%char then
        match parse_nat r with
        | Some (n, rest) => Some (JNum (- n), rest)
        | None => None
        end
      else
        match parse_nat cs with
        | Some (n, rest) => Some (JNum n, rest)
        | None => None
        end
  | [] => None
  end.

Definition unescape (c : ascii) : option ascii :=
  if Ascii.eqb c dquote then Some dquote
  else if Ascii.eqb c backslash then Some backslash
  else if Ascii.eqb c "/"%char then Some "/"%char
  else if Ascii.eqb c "b"%char then Some (ascii_of_N 8)
  else if Ascii.eqb c "f"%char then Some (ascii_of_N 12)
  else if Ascii.eqb c "n"%char then Some (ascii_of_N 10)
  else if Ascii.eqb c "r"%char then Some (ascii_of_N 13)
  else if Ascii.eqb c "t"%char then Some (ascii_of_N 9)
  else None.

Definition unescape_u (a b c d : ascii) : option ascii :=
  match hex_value a, hex_value b, hex_value c, hex_value d with
  | Some 0%N, Some 0%N, Some h, Some l => Some (ascii_of_N (16 * h + l))
  | _, _, _, _ => None
  end.

(** The characters of a string up to its closing quote; [acc] holds the
    characters read so far, last first. *)
Fixpoint parse_chars (cs : list ascii) (acc : list ascii)
  : option (string * list ascii) :=
  match cs with
  | [] => None
  | c :: r =>
      if Ascii.eqb c dquote then Some (string_of_list_ascii (rev acc), r)
      else if Ascii.eqb c backslash then
        match r with
        | e :: r' =>
            if Ascii.eqb e "u"%char then
              match r' with
              | h1 :: h2 :: h3 :: h4 :: r'' =>
                  match unescape_u h1 h2 h3 h4 with
                  | Some ch => parse_chars r'' (ch :: acc)
                  | None => None
                  end
              | _ => None
              end
            else
              match unescape e with
              | Some ch => parse_chars r' (ch :: acc)
              | None => None
              end
        | [] => None
        end
      else if (N_of_ascii c <? 32)%N then None
      else parse_chars r (c :: acc)
  end.

(** A value at the head of [cs], after optional white space.  [fuel]
    bounds the depth of the calls; [parse_text] starts it above twice the
    length of the text. *)
Fixpoint parse_value (fuel : nat) (cs : list ascii)
  : option (Json * list ascii) :=
  match fuel with
  | O => None
  | S fuel' =>
      match skip_ws cs with
      | "n" :: "u" :: "l" :: "l" :: r => Some (JNull, r)
      | "t" :: "r" :: "u" :: "e" :: r => Some (JBool true, r)
      | "f" :: "a" :: "l" :: "s" :: "e" :: r => Some (JBool false, r)
      | "[" :: r =>
          match skip_ws r with
          | "]" :: r' => Some (JArr [], r')
          | _ =>
              match parse_elements fuel' r [] with
              | Some (items, r') => Some (JArr items, r')
              | None => None
              end
          end
      | "{" :: r =>
          match skip_ws r with
          | "}" :: r' => Some (JObj [], r')
          | _ =>
              match parse_members fuel' r [] with
              | Some (fields, r') => Some (JObj fields, r')
              | None => None
              end
          end
      | c :: r =>
          if Ascii.eqb c dquote then
            match parse_chars r [] with
            | Some (s, r') => Some (JStr s, r')
            | None => None
            end
          else parse_number (c :: r)
      | [] => None
      end
  end%char

(** The elements of an array after its opening bracket, up to and
    including the closing one; [acc] holds the elements read, last first. *)
with parse_elements (fuel : nat) (cs : list ascii) (acc : list Json)
  : option (list Json * list ascii) :=
  match fuel with
  | O => None
  | S fuel' =>
      match parse_value fuel' cs with
      | Some (x, r) =>
          match skip_ws r with
          | "," :: r' => parse_elements fuel' r' (x :: acc)
          | "]" :: r' => Some (rev (x :: acc), r')
          | _ => None
          end
      | None => None
      end
  end%char

(** The members of an object, likewise. *)
with parse_members (fuel : nat) (cs : list ascii)
    (acc : list (string * Json))
  : option (list (string * Json) * list ascii) :=
  match fuel with
  | O => None
  | S fuel' =>
      match skip_ws cs with
      | c :: r =>
          if Ascii.eqb c dquote then
            match parse_chars r [] with
            | Some (k, r1) =>
                match skip_ws r1 with
                | ":" :: r2 =>
                    match parse_value fuel' r2 with
                    | Some (x, r3) =>
                        match skip_ws r3 with
                        | "," :: r' => parse_members fuel' r' ((k, x) :: acc)
                        | "}" :: r' => Some (rev ((k, x) :: acc), r')
                        | _ => None
                        end
                    | None => None
                    end
                | _ => None
                end
            | None => None
            end
          else None
      | [] => None
      end
  end%char.

(** [JSON.parse] on a text: one value, with white space around it. *)
Definition parse_text (s : string) : Completion Json :=
  let cs := list_ascii_of_string s in
  match parse_value (2 * length cs + 2) cs with
  | Some (j, rest) =>
      match skip_ws rest with
      | [] => Normal j
      | _ :: _ => Throw (SyntaxError "Unexpected non-whitespace character after JSON")
      end
  | None => Throw (SyntaxError "Unexpected token or end of JSON input")
  end.

(** [JSON.parse(value)]: the argument is converted to a text first.  A
    cell whose computation failed has no value to convert. *)
Definition parse (v : JSValue) : Completion Json :=
  match v with
  | JRenderFails e => Throw e
  | _ => parse_text (ToString v)
  end.

Definition host : JSONHost :=
  {| JSON_parse := parse; JSON_stringify := stringify |}.

(** The updater [(prev) => prev + 1]: addition on numbers, with [null]
    and booleans converted to numbers, and concatenation otherwise. *)
Definition plus_one (prev : Json) : Json :=
  match prev with
  | JNum n => JNum (n + 1)
  | JNull => JNum 1
  | JBool b => JNum (if b then 2 else 1)
  | JStr _ | JArr _ | JObj _ => JStr (ToString_data prev ++ "1")
  end.

End RefHost.

(** ** Scenarios, run on the reference host *)

Module Scenarios.

#[local] Existing Instance RefHost.host.

Definition no_window : SimpleStore.Window :=
  {| SimpleStore.localStorage := ∅; SimpleStore.sessionStorage := ∅ |}.

Definition no_chrome : ChromeStore.Chrome :=
  {| ChromeStore.local := ∅; ChromeStore.session := ∅ |}.

(** [count]: three calls of the setter with [(prev) => prev + 1], each made
    through the render that follows the previous call. *)
Definition count_thrice (w : SimpleStore.Window) : Json * SimpleStore.Window :=
  let call := SimpleStore.call_setter "count" (Some true)
                (Updater RefHost.plus_one) in
  call (call (call (JNum 0, w))).

(** The same three calls made through one render: each closure holds the
    [value] of that render. *)
Definition count_thrice_one_render (w : SimpleStore.Window)
  : Json * SimpleStore.Window :=
  let setter := snd (SimpleStore.useSimpleStore "count" (Some true) (JNum 0)) in
  let '(_, w1) := setter (Updater RefHost.plus_one) w in
  let '(_, w2) := setter (Updater RefHost.plus_one) w1 in
  setter (Updater RefHost.plus_one) w2.

(** A window whose selected area holds one entry. *)
Definition window_with (persist : bool) (key text : string)
  : SimpleStore.Window :=
  SimpleStore.with_storage persist no_window {[ key := text ]}.

Definition chrome_with (persist : bool) (key : string) (item : Json)
  : ChromeStore.Chrome :=
  ChromeStore.with_storage persist no_chrome {[ key := item ]}.

(** An [onChanged] event that reports one changed key. *)
Definition change_of (area key : string) (new : JSValue)
  : ChromeStore.ChangeEvent :=
  {| ChromeStore.changes :=
       {[ key := {| ChromeStore.oldValue := JUndefined;
                    ChromeStore.newValue := new |} ]};
     ChromeStore.areaName := area |}.

Definition other_event : SimpleStore.StorageEvent :=
  {| SimpleStore.ev_key := Some "other";
     SimpleStore.ev_newValue := Some "1" |}.

End Scenarios.

(** ** Renders after the first

    A hook is called again on every render of its component.  React runs
    an effect again, after the clean-up of its previous run, when a value
    of its dependency list differs from the previous render's; otherwise
    the listener registered by the earlier run stays, with the arguments
    that run closed over. *)

Module Lifecycle.

(** The arguments of one call of a hook, [persist] with its default
    filled in. *)
Record Args : Type := {
  arg_key : string;
  arg_persist : bool
}.

Definition same_key (a b : Args) : bool :=
  String.eqb (arg_key a) (arg_key b).

(** [storage] is one of two host objects, chosen by [persist]. *)
Definition same_storage (a b : Args) : bool :=
  Bool.eqb (arg_persist a) (arg_persist b).

(** The dependency list [[key, storage]] of [useSimpleStore] (line 26). *)
Definition browser_effect_runs (prev next : Args) : bool :=
  negb (same_key prev next && same_storage prev next).

(** The dependency list [[key]] of both effects of [useChromeStore]
    (lines 118 and 154). *)
Definition chrome_effect_runs (prev next : Args) : bool :=
  negb (same_key prev next).

(** A mounted hook: the arguments of its latest render, used by the setter
    that render returns, and the arguments the registered listener closed
    over. *)
Record Mounted : Type := {
  rendered : Args;
  listening : Args
}.

Definition first_render (a : Args) : Mounted :=
  {| rendered := a; listening := a |}.

Definition render (effect_runs : Args -> Args -> bool) (next : Args)
    (m : Mounted) : Mounted :=
  {| rendered := next;
     listening := if effect_runs (rendered m) next then next
                  else listening m |}.

Definition renders (effect_runs : Args -> Args -> bool) (nexts : list Args)
    (m : Mounted) : Mounted :=
  fold_left (fun m next => render effect_runs next m) nexts m.

Section Hooks.
Context `{JSONHost}.

(** The listener on [window] for a mounted [useSimpleStore]. *)
Definition browser_listener (m : Mounted)
  : SimpleStore.StorageEvent -> SimpleStore.Window -> Json -> Completion Json :=
  SimpleStore.handleStorageChange
    (arg_key (listening m)) (arg_persist (listening m)).

(** The listener on [chrome.storage.onChanged] for a mounted
    [useChromeStore]. *)
Definition chrome_listener (m : Mounted)
  : ChromeStore.ChangeEvent -> ChromeStore.State -> ChromeStore.State :=
  ChromeStore.handleStorageChange
    (arg_key (listening m)) (arg_persist (listening m)).

(** The setter returned by the latest render of [useChromeStore]. *)
Definition chrome_setter (m : Mounted) (st : ChromeStore.State)
  : SetStateAction JSValue -> ChromeStore.Chrome
    -> ChromeStore.State * ChromeStore.Chrome :=
  snd (fst (ChromeStore.useChromeStore
              (arg_key (rendered m)) (Some (arg_persist (rendered m))) st)).

End Hooks.

End Lifecycle.

(** ** Histories of an extension binding *)

Module History.

(** What can happen to a mounted [useChromeStore]: its initial read
    completes, a change event arrives, its setter is called through the
    current render, or another context rewrites the storage areas. *)
Inductive Action : Type :=
| ReadDone
| Changed (ev : ChromeStore.ChangeEvent)
| Called (valueAction : SetStateAction JSValue)
| Outside (c : ChromeStore.Chrome).

Definition is_read (a : Action) : bool :=
  match a with
  | ReadDone => true
  | _ => false
  end.

Section Hook.
Context `{JSONHost}.

Definition step (key : string) (persist : option bool) (a : Action)
    (sc : ChromeStore.State * ChromeStore.Chrome)
  : ChromeStore.State * ChromeStore.Chrome :=
  match a with
  | ReadDone =>
      (ChromeStore.initialRead key (ChromeStore.persist_arg persist)
         (snd sc) (fst sc),
       snd sc)
  | Changed ev => (ChromeStore.listener key persist ev (fst sc), snd sc)
  | Called valueAction =>
      snd (fst (ChromeStore.useChromeStore key persist (fst sc)))
        valueAction (snd sc)
  | Outside c => (fst sc, c)
  end.

Definition run (key : string) (persist : option bool) (acts : list Action)
    (sc : ChromeStore.State * ChromeStore.Chrome)
  : ChromeStore.State * ChromeStore.Chrome :=
  fold_left (fun sc a => step key persist a sc) acts sc.

End Hook.

End History.

(** * Properties *)

(** ** The reference host on small inputs *)

Example stringify_three : RefHost.stringify (JNum 3) = "3".
Proof. reflexivity. Qed.

Example stringify_nested :
  RefHost.stringify (JObj [("a", JArr [JNum (-1); JNull; JBool true])])
  = "{" ++ RefHost.quote "a" ++ ":[-1,null,true]}".
Proof. vm_compute. reflexivity. Qed.

Example parse_three : RefHost.parse (JStr " 3 ") = Normal (JNum 3).
Proof. vm_compute. reflexivity. Qed.

Example parse_array :
  RefHost.parse (JStr "[1, [true, null], {}]")
  = Normal (JArr [JNum 1; JArr [JBool true; JNull]; JObj []]).
Proof. vm_compute. reflexivity. Qed.

Example parse_bare_word :
  instanceof_SyntaxError
    (match RefHost.parse (JStr "yes") with
     | Throw e => e
     | Normal _ => TypeError "no error"
     end) = true.
Proof. vm_compute. reflexivity. Qed.

(** The text of an inherited member is no JSON text. *)
Example inherited_members_do_not_parse :
  Forall (λ name, ∃ e, RefHost.parse (JStr (inherited_text name)) = Throw e
                       ∧ instanceof_SyntaxError e = true)
    prototype_members.
Proof. repeat constructor; eexists; vm_compute; split; reflexivity. Qed.

(** [JSON.parse(undefined)] reads the text [undefined], which is no JSON;
    [JSON.parse(5)] reads the text [5]. *)
Example parse_undefined : ∃ e, RefHost.parse JUndefined = Throw e.
Proof. eexists. vm_compute. reflexivity. Qed.

Example parse_number_item : RefHost.parse (JNum 5) = Normal (JNum 5).
Proof. vm_compute. reflexivity. Qed.

(** ** Storage primitives *)

Section StorageFacts.
Import SimpleStore.

Lemma storage_with_storage persist w m :
  storage persist (with_storage persist w m) = m.
Proof. by destruct persist. Qed.

Lemma getItem_setItem m key text : getItem (setItem m key text) key = Some text.
Proof. apply lookup_insert_eq. Qed.

Lemma truthy_nonempty s : s ≠ "" → truthy s = true.
Proof. by destruct s. Qed.

End StorageFacts.

Section ChromeFacts.
Import ChromeStore.

Lemma chrome_storage_with_storage persist c m :
  storage persist (with_storage persist c m) = m.
Proof. by destruct persist. Qed.

(** The object given to the callback of [get([key])] has [key] exactly
    when the area has it. *)
Lemma lookup_get area key : get area [key] !! key = area !! key.
Proof.
  unfold get. destruct (area !! key) as [item|] eqn:Hitem.
  - apply map_lookup_filter_Some. split; [done | set_solver].
  - apply map_lookup_filter_None. by left.
Qed.

Lemma prop_get area key : prop (get area [key]) key = prop area key.
Proof. unfold prop, property. by rewrite lookup_get. Qed.

Lemma prop_Some o key item : o !! key = Some item → prop o key = JData item.
Proof. unfold prop, property. by intros ->. Qed.

(** A key the object lacks reads as [undefined] unless it names a member
    of [Object.prototype]; then it reads as that member. *)
Lemma prop_None o key :
  o !! key = None → is_prototype_member key = false →
  prop o key = JUndefined.
Proof. unfold prop, property. by intros -> ->. Qed.

Lemma prop_inherited o key :
  o !! key = None → is_prototype_member key = true →
  prop o key = ReadInherited key.
Proof. unfold prop, property. by intros -> ->. Qed.

Lemma property_Some {A : Type} (o : gmap string A) key a :
  o !! key = Some a → property o key = Own a.
Proof. unfold property. by intros ->. Qed.

Lemma property_None {A : Type} (o : gmap string A) key :
  o !! key = None → is_prototype_member key = false →
  property o key = Missing.
Proof. unfold property. by intros -> ->. Qed.

Lemma lookup_set_singleton area key item :
  set area {[ key := item ]} !! key = Some item.
Proof.
  unfold set. apply lookup_union_Some_l, lookup_singleton_eq.
Qed.

(** The handler's test accepts exactly the area the binding expects. *)
Lemma area_matches_expected persist area :
  area_matches persist area = true ↔ area = expected_area persist.
Proof.
  unfold area_matches, expected_area. destruct persist; simpl.
  - rewrite orb_false_r. apply String.eqb_eq.
  - apply String.eqb_eq.
Qed.

Lemma area_matches_other persist area :
  area ≠ expected_area persist → area_matches persist area = false.
Proof.
  intros Hne. apply not_true_is_false. by rewrite area_matches_expected.
Qed.

End ChromeFacts.

(** ** The [count] scenario *)

(** C1, as stated, fails: it does not say through which render the three
    calls are made.  Made one after the other through the setter that the
    first render returned, each call computes from the 0 of that render,
    and the entry ends as the text "1" and the value as 1. *)
Lemma count_scenario_counterexample :
  let after := Scenarios.count_thrice_one_render Scenarios.no_window in
  SimpleStore.getItem (SimpleStore.localStorage Scenarios.no_window) "count"
  = None
  ∧ fst after = JNum 1
  ∧ SimpleStore.getItem (SimpleStore.localStorage (snd after)) "count"
    = Some "1"
  ∧ fst after ≠ JNum 3
  ∧ SimpleStore.getItem (SimpleStore.localStorage (snd after)) "count"
    ≠ Some "3".
Proof.
  split; [reflexivity |]. split; [vm_compute; reflexivity |].
  split; [vm_compute; reflexivity |].
  split; vm_compute; discriminate.
Qed.

(** C1 (amended). Browser binding on key "count" with defaultValue 0 and
    persist=true, no prior entry: the binding initialises to 0, and after
    three sequential setter calls with [(prev) => prev + 1], each made
    through the setter returned by the render that follows the previous
    call, the raw entry under "count" is the text "3" and the in-memory
    value is 3. *)
Theorem count_scenario (w : SimpleStore.Window) :
  SimpleStore.getItem (SimpleStore.localStorage w) "count" = None →
  SimpleStore.mount (H := RefHost.host) "count" (JNum 0) (Some true) w
    = Normal (JNum 0)
  ∧ SimpleStore.getItem
      (SimpleStore.localStorage (snd (Scenarios.count_thrice w))) "count"
    = Some "3"
  ∧ fst (Scenarios.count_thrice w) = JNum 3.
Proof.
  intros Habsent. repeat split.
  - unfold SimpleStore.mount, SimpleStore.initialValue. simpl.
    by rewrite Habsent.
  - unfold Scenarios.count_thrice, SimpleStore.call_setter. simpl.
    apply getItem_setItem.
Qed.

Lemma count_scenario_witness :
  SimpleStore.getItem (SimpleStore.localStorage Scenarios.no_window) "count"
    = None
  ∧ fst (Scenarios.count_thrice Scenarios.no_window) = JNum 3.
Proof.
  split; [reflexivity |].
  apply (count_scenario Scenarios.no_window). reflexivity.
Defined.

(** Three calls through the closure of a single render all see the value
    of that render, and the entry ends as "1". *)
Remark count_one_render (w : SimpleStore.Window) :
  Scenarios.count_thrice_one_render w
  = (JNum 1,
     SimpleStore.with_storage true w
       (<["count" := "1"]> (SimpleStore.localStorage w))).
Proof.
  unfold Scenarios.count_thrice_one_render, SimpleStore.useSimpleStore,
    SimpleStore.setStoredValue, SimpleStore.setItem.
  simpl. by rewrite !insert_insert_eq.
Qed.

(** ** Write-through of the setters *)


(** ** Reads of the browser binding *)

(** The initial read takes an entry as present only when its text is
    truthy, that is, not empty. *)
Lemma initialValue_entry `{JSONHost} key D persist w s :
  SimpleStore.getItem (SimpleStore.storage persist w) key = Some s →
  s ≠ "" →
  SimpleStore.initialValue key D persist w = JSON_parse (JStr s).
Proof.
  intros Hentry Hne. unfold SimpleStore.initialValue.
  by rewrite Hentry, truthy_nonempty.
Qed.

Lemma initialValue_empty_entry `{JSONHost} key D persist w :
  SimpleStore.getItem (SimpleStore.storage persist w) key = Some "" →
  SimpleStore.initialValue key D persist w = Normal D.
Proof. intros Hentry. unfold SimpleStore.initialValue. by rewrite Hentry. Qed.

Lemma initialValue_no_entry `{JSONHost} key D persist w :
  SimpleStore.getItem (SimpleStore.storage persist w) key = None →
  SimpleStore.initialValue key D persist w = Normal D.
Proof. intros Hentry. unfold SimpleStore.initialValue. by rewrite Hentry. Qed.

(** The listener re-reads its own key, whatever the event says. *)
Lemma handleStorageChange_entry `{JSONHost} key persist ev w value s :
  SimpleStore.getItem (SimpleStore.storage persist w) key = Some s →
  SimpleStore.handleStorageChange key persist ev w value = JSON_parse (JStr s).
Proof.
  intros Hentry. unfold SimpleStore.handleStorageChange. by rewrite Hentry.
Qed.

Lemma handleStorageChange_no_entry `{JSONHost} key persist ev w value :
  SimpleStore.getItem (SimpleStore.storage persist w) key = None →
  SimpleStore.handleStorageChange key persist ev w value = Normal value.
Proof.
  intros Hentry. unfold SimpleStore.handleStorageChange. by rewrite Hentry.
Qed.

(** The empty text is an entry, and it does not parse. *)
Lemma empty_entry_unparsable :
  ∃ e, RefHost.parse (JStr "") = Throw e.
Proof. eexists. vm_compute. reflexivity. Qed.

(** C3, as stated, fails: with the empty text stored under the key, an
    entry exists, yet the initial value is the default and not the parse of
    the entry, which is a syntax error. *)
Lemma initial_value_counterexample :
  ¬ (∀ (key : string) (D : Json) (persist : bool) (w : SimpleStore.Window)
       (s : string),
       SimpleStore.getItem (SimpleStore.storage persist w) key = Some s →
       SimpleStore.initialValue (H := RefHost.host) key D persist w
       = RefHost.parse (JStr s)).
Proof.
  intros Hclaim.
  specialize (Hclaim "k" (JNum 7) true (Scenarios.window_with true "k" "") "").
  vm_compute in Hclaim. by specialize (Hclaim eq_refl).
Qed.

(** C3 (amended). For every key K and defaultValue D: if the selected area
    holds a non-empty entry under K, the initial value is the parse of its
    text (a parse error being thrown to the caller); if it holds no entry
    under K, or the empty text, the initial value is D. *)
Theorem initial_value_browser `{JSONHost} (key : string) (D : Json)
    (persist : option bool) (w : SimpleStore.Window) :
  let area := SimpleStore.storage (SimpleStore.persist_arg persist) w in
  (∀ s, SimpleStore.getItem area key = Some s → s ≠ "" →
        SimpleStore.mount key D persist w = JSON_parse (JStr s))
  ∧ (SimpleStore.getItem area key = Some "" →
     SimpleStore.mount key D persist w = Normal D)
  ∧ (SimpleStore.getItem area key = None →
     SimpleStore.mount key D persist w = Normal D).
Proof.
  unfold SimpleStore.mount. repeat split.
  - intros s. apply initialValue_entry.
  - apply initialValue_empty_entry.
  - apply initialValue_no_entry.
Qed.

Lemma initial_value_browser_witness :
  SimpleStore.mount (H := RefHost.host) "k" JNull (Some false)
    (Scenarios.window_with false "k" "[1,2]")
  = Normal (JArr [JNum 1; JNum 2])
  ∧ SimpleStore.mount (H := RefHost.host) "k" JNull None
      (Scenarios.window_with true "k" "")
    = Normal JNull
  ∧ SimpleStore.mount (H := RefHost.host) "k" JNull None Scenarios.no_window
    = Normal JNull.
Proof.
  split; [| split].
  - etransitivity.
    + apply (proj1 (initial_value_browser (H := RefHost.host) "k" JNull
                      (Some false) (Scenarios.window_with false "k" "[1,2]"))
               "[1,2]").
      * reflexivity.
      * discriminate.
    + vm_compute. reflexivity.
  - apply (proj1 (proj2 (initial_value_browser (H := RefHost.host) "k" JNull
                           None (Scenarios.window_with true "k" "")))).
    reflexivity.
  - apply (proj2 (proj2 (initial_value_browser (H := RefHost.host) "k" JNull
                           None Scenarios.no_window))).
    reflexivity.
Defined.

(** C4, as stated, fails: with "2" stored under "obj" in the session area
    and 1 in memory, an event for "other" makes the listener adopt 2. *)
Lemma other_key_event_counterexample :
  SimpleStore.ev_key Scenarios.other_event = Some "other"
  ∧ SimpleStore.handleStorageChange (H := RefHost.host) "obj" false
      Scenarios.other_event (Scenarios.window_with false "obj" "2") (JNum 1)
    = Normal (JNum 2)
  ∧ SimpleStore.handleStorageChange (H := RefHost.host) "obj" false
      Scenarios.other_event (Scenarios.window_with false "obj" "2") (JNum 1)
    ≠ Normal (JNum 1).
Proof.
  split; [reflexivity | split].
  - vm_compute. reflexivity.
  - vm_compute. discriminate.
Qed.

(** C4 (amended). Browser binding on "obj" with persist=false: on a change
    event for the key "other" the listener re-reads "obj" from the session
    area.  The in-memory value stays as it is when the area holds no entry
    under "obj" or when that entry parses to the in-memory value; an entry
    that parses to another value is adopted. *)
Theorem other_key_event `{JSONHost} (ev : SimpleStore.StorageEvent)
    (w : SimpleStore.Window) (value : Json) :
  SimpleStore.ev_key ev = Some "other" →
  let entry := SimpleStore.getItem (SimpleStore.sessionStorage w) "obj" in
  let after := SimpleStore.listener "obj" (Some false) ev w value in
  (entry = None → after = Normal value)
  ∧ (∀ s, entry = Some s → JSON_parse (JStr s) = Normal value →
          after = Normal value)
  ∧ (∀ s parsed, entry = Some s → JSON_parse (JStr s) = Normal parsed →
                 after = Normal parsed).
Proof.
  intros _ entry after. subst entry after. unfold SimpleStore.listener.
  repeat split.
  - apply (handleStorageChange_no_entry "obj" false).
  - intros s Hentry <-. by apply (handleStorageChange_entry "obj" false).
  - intros s parsed Hentry <-. by apply (handleStorageChange_entry "obj" false).
Qed.

Lemma other_key_event_witness :
  SimpleStore.listener (H := RefHost.host) "obj" (Some false)
    Scenarios.other_event (Scenarios.window_with false "other" "1") (JNum 5)
  = Normal (JNum 5)
  ∧ SimpleStore.listener (H := RefHost.host) "obj" (Some false)
      Scenarios.other_event (Scenarios.window_with false "obj" "5") (JNum 5)
    = Normal (JNum 5).
Proof.
  split.
  - apply (proj1 (other_key_event (H := RefHost.host) Scenarios.other_event
                    (Scenarios.window_with false "other" "1") (JNum 5)
                    eq_refl)).
    reflexivity.
  - apply (proj1 (proj2 (other_key_event (H := RefHost.host)
                           Scenarios.other_event
                           (Scenarios.window_with false "obj" "5") (JNum 5)
                           eq_refl))
             "5").
    + reflexivity.
    + vm_compute. reflexivity.
Defined.

(** ** Malformed entries in the browser binding *)

(** C9, as stated, fails on the initial read: the empty text is a malformed
    entry, and the initial read yields the default without any error. *)
Lemma malformed_entry_counterexample :
  ¬ (∀ (key : string) (D : Json) (persist : bool) (w : SimpleStore.Window)
       (s : string) (e : JSError),
       SimpleStore.getItem (SimpleStore.storage persist w) key = Some s →
       RefHost.parse (JStr s) = Throw e →
       SimpleStore.initialValue (H := RefHost.host) key D persist w = Throw e).
Proof.
  intros Hclaim.
  destruct empty_entry_unparsable as [e He].
  specialize (Hclaim "k" JNull false (Scenarios.window_with false "k" "")
                "" e eq_refl He).
  vm_compute in Hclaim. discriminate.
Qed.

(** C9 (amended). Browser binding: a malformed entry under the binding's
    key makes the parse error propagate to the caller, uncaught, on the
    change-handler re-read, and on the initial read when the entry is not
    the empty text. *)
Theorem malformed_entry_propagates `{JSONHost} (key : string) (D : Json)
    (persist : option bool) (w : SimpleStore.Window) (s : string)
    (e : JSError) :
  SimpleStore.getItem
    (SimpleStore.storage (SimpleStore.persist_arg persist) w) key = Some s →
  JSON_parse (JStr s) = Throw e →
  (s ≠ "" → SimpleStore.mount key D persist w = Throw e)
  ∧ (∀ ev value, SimpleStore.listener key persist ev w value = Throw e).
Proof.
  intros Hentry Hparse. split.
  - intros Hne. unfold SimpleStore.mount.
    by rewrite (initialValue_entry _ _ _ _ s).
  - intros ev value. unfold SimpleStore.listener.
    by rewrite (handleStorageChange_entry _ _ _ _ _ s).
Qed.

Lemma malformed_entry_propagates_witness :
  (∃ e, SimpleStore.mount (H := RefHost.host) "flag" JNull None
          (Scenarios.window_with true "flag" "yes") = Throw e)
  ∧ (∃ e, SimpleStore.listener (H := RefHost.host) "flag" None
            Scenarios.other_event (Scenarios.window_with true "flag" "yes")
            JNull = Throw e).
Proof.
  pose proof (malformed_entry_propagates (H := RefHost.host) "flag" JNull None
                (Scenarios.window_with true "flag" "yes") "yes"
                (SyntaxError "Unexpected token or end of JSON input")
                eq_refl eq_refl) as [Hmount Hlisten].
  split.
  - eexists. apply Hmount. discriminate.
  - eexists. apply Hlisten.
Defined.

(** ** The change handler of the extension binding *)

Section ChangeHandler.
Import ChromeStore.
Context `{JSONHost}.

Lemma handleStorageChange_other_area key persist ev st :
  areaName ev ≠ expected_area persist →
  handleStorageChange key persist ev st = st.
Proof.
  intros Harea. unfold handleStorageChange.
  by rewrite area_matches_other.
Qed.

(** A change set that lacks the key is passed over when the key names no
    member of [Object.prototype]. *)
Lemma handleStorageChange_other_key key persist ev st :
  changes ev !! key = None →
  is_prototype_member key = false →
  handleStorageChange key persist ev st = st.
Proof.
  intros Hkey Hplain. unfold handleStorageChange.
  rewrite (property_None _ _ Hkey Hplain). simpl.
  by destruct (area_matches persist (areaName ev)).
Qed.

(** A change set that lacks the key is not passed over when the key names
    a member of [Object.prototype]: the member is truthy and has no
    [newValue], so the handler goes on with [undefined]. *)
Lemma handleStorageChange_inherited key persist ev st :
  areaName ev = expected_area persist →
  changes ev !! key = None →
  is_prototype_member key = true →
  handleStorageChange key persist ev st
  = match JSON_parse JUndefined with
    | Normal parsed => setValue parsed st
    | Throw error =>
        if instanceof_SyntaxError error then setValue JUndefined st else st
    end.
Proof.
  intros Harea Hkey Hmember. unfold handleStorageChange, property.
  apply area_matches_expected in Harea. by rewrite Harea, Hkey, Hmember.
Qed.

(** What the handler does to a change of its own key in its own area. *)
Lemma handleStorageChange_match key persist ev change st :
  areaName ev = expected_area persist →
  changes ev !! key = Some change →
  handleStorageChange key persist ev st
  = match JSON_parse (newValue change) with
    | Normal parsed => setValue parsed st
    | Throw error =>
        if instanceof_SyntaxError error
        then setValue (newValue change) st
        else st
    end.
Proof.
  intros Harea Hkey. unfold handleStorageChange.
  apply area_matches_expected in Harea.
  by rewrite Harea, (property_Some _ _ _ Hkey).
Qed.

End ChangeHandler.

(** For a key that names no member of [Object.prototype], change events
    in another area, or without the key, never alter the bound value. *)
Lemma unrelated_changes_ignored `{JSONHost} (key : string)
    (persist : option bool) (evs : list ChromeStore.ChangeEvent)
    (st : ChromeStore.State) :
  is_prototype_member key = false →
  Forall (λ ev,
            ChromeStore.areaName ev
            ≠ ChromeStore.expected_area (ChromeStore.persist_arg persist)
            ∨ ChromeStore.changes ev !! key = None) evs →
  ChromeStore.value (ChromeStore.deliver key persist evs st)
  = ChromeStore.value st.
Proof.
  intros Hplain Hevs. unfold ChromeStore.deliver. revert st.
  induction Hevs as [| ev evs Hev _ IH]; intros st; simpl; [done |].
  rewrite IH. f_equal. unfold ChromeStore.listener.
  destruct Hev as [Harea | Hkey].
  - by apply handleStorageChange_other_area.
  - by apply handleStorageChange_other_key.
Qed.

Example unrelated_changes_ignored_flag :
  ChromeStore.value
    (ChromeStore.deliver (H := RefHost.host) "flag" (Some true)
       [Scenarios.change_of "session" "flag" (JStr "1");
        Scenarios.change_of "local" "other" (JStr "2");
        Scenarios.change_of "sync" "flag" JUndefined]
       (ChromeStore.initialState (JNum 0)))
  = JData (JNum 0).
Proof.
  apply (unrelated_changes_ignored (H := RefHost.host) "flag" (Some true));
    [reflexivity |].
  repeat constructor; simpl; discriminate.
Qed.

(** C5 fails on the code.  The binding's key is "constructor", the mode is
    the session one, and a change event of the session area reports a
    change of the key "other" only.  [changes["constructor"]] is the
    inherited [Object], which is truthy and has no [newValue];
    [JSON.parse(undefined)] throws a syntax error, and the handler sets the
    bound value, 0 before, to [undefined]. *)
Theorem inherited_key_change_alters_value :
  let ev := Scenarios.change_of "session" "other" (JStr "1") in
  let st := ChromeStore.initialState (JNum 0) in
  ChromeStore.areaName ev = ChromeStore.expected_area false
  ∧ ChromeStore.changes ev !! "constructor" = None
  ∧ ChromeStore.value st = JData (JNum 0)
  ∧ ChromeStore.value
      (ChromeStore.listener (H := RefHost.host) "constructor" (Some false)
         ev st)
    = JUndefined.
Proof.
  split; [reflexivity |]. split; [reflexivity |]. split; [reflexivity |].
  vm_compute. reflexivity.
Qed.



(** ** The initial read of the extension binding *)

Section InitialRead.
Import ChromeStore.
Context `{JSONHost}.

Lemma read_callback_loaded key result st :
  hasLoaded (read_callback key result st) = true.
Proof. done. Qed.

Lemma read_callback_hit key result st raw :
  result !! key = Some raw →
  value (read_callback key result st)
  = match JSON_parse (JData raw) with
    | Normal parsed => JData parsed
    | Throw _ => JData raw
    end.
Proof.
  intros Hraw. unfold read_callback. rewrite (prop_Some _ _ raw Hraw).
  simpl. by destruct (JSON_parse (JData raw)).
Qed.

Lemma read_callback_miss key result st :
  result !! key = None →
  is_prototype_member key = false →
  value (read_callback key result st) = value st.
Proof.
  intros Hraw Hplain. unfold read_callback.
  by rewrite (prop_None _ _ Hraw Hplain).
Qed.

(** A key that the result lacks and that names a member of
    [Object.prototype] is taken for a hit: the member does not parse, and
    it goes to the state setter. *)
Lemma read_callback_inherited key result st :
  result !! key = None →
  is_prototype_member key = true →
  read_callback key result st
  = setHasLoaded true (setValue_read (ReadInherited key) st).
Proof.
  intros Hraw Hmember. unfold read_callback.
  by rewrite (prop_inherited _ _ Hraw Hmember).
Qed.

End InitialRead.

(** The initial read for every key and defaultValue: a present key whose
    item parses yields the parsed value; a present key whose item does not
    parse yields the raw item; the loaded flag is set in every case; and an
    absent key leaves the value as it was, defaultValue after the first
    render, when it names no member of [Object.prototype]. *)
Lemma initial_read_extension `{JSONHost} (key : string) (D : Json)
    (persist : option bool) (c : ChromeStore.Chrome) :
  let area := ChromeStore.storage (ChromeStore.persist_arg persist) c in
  let st' := ChromeStore.mount key D persist c in
  ChromeStore.hasLoaded st' = true
  ∧ (∀ raw parsed, area !! key = Some raw →
                   JSON_parse (JData raw) = Normal parsed →
                   ChromeStore.value st' = JData parsed)
  ∧ (∀ raw e, area !! key = Some raw →
              JSON_parse (JData raw) = Throw e →
              ChromeStore.value st' = JData raw)
  ∧ (area !! key = None → is_prototype_member key = false →
     ChromeStore.value st' = JData D)
  ∧ (∀ st, area !! key = None → is_prototype_member key = false →
           ChromeStore.value
             (ChromeStore.initialRead key (ChromeStore.persist_arg persist)
                c st)
           = ChromeStore.value st).
Proof.
  intros area st'. subst area st'.
  unfold ChromeStore.mount, ChromeStore.initialRead.
  split; [apply read_callback_loaded |]. repeat split.
  - intros raw parsed Hraw Hparse.
    rewrite (read_callback_hit _ _ _ raw) by (by rewrite lookup_get).
    by rewrite Hparse.
  - intros raw e Hraw Hparse.
    rewrite (read_callback_hit _ _ _ raw) by (by rewrite lookup_get).
    by rewrite Hparse.
  - intros Hraw Hplain.
    by rewrite read_callback_miss by (by rewrite ?lookup_get).
  - intros st Hraw Hplain.
    by rewrite read_callback_miss by (by rewrite ?lookup_get).
Qed.

(** The scenario of the key "flag" holding the text [yes]: the raw text is
    adopted and the loaded flag is set. *)
Example initial_read_flag :
  ChromeStore.mount (H := RefHost.host) "flag" JNull None
    (Scenarios.chrome_with false "flag" (JStr "yes"))
  = {| ChromeStore.value := JData (JStr "yes");
       ChromeStore.hasLoaded := true |}.
Proof. vm_compute. reflexivity. Qed.

(** C7 fails on the code.  The binding's key is "toString", defaultValue is
    0, and the session area is empty, so the key is absent.
    [result["toString"]] is the inherited function, not [undefined]; it
    does not parse, the catch clause hands it to [setValue], React calls it
    as an updater, and the value ends as the text "[object Undefined]"
    instead of staying at 0. *)
Theorem inherited_key_initial_read :
  ChromeStore.storage (ChromeStore.persist_arg None) Scenarios.no_chrome
    !! "toString" = None
  ∧ ChromeStore.mount (H := RefHost.host) "toString" (JNum 0) None
      Scenarios.no_chrome
    = {| ChromeStore.value := JData (JStr "[object Undefined]");
         ChromeStore.hasLoaded := true |}
  ∧ ChromeStore.value
      (ChromeStore.mount (H := RefHost.host) "toString" (JNum 0) None
         Scenarios.no_chrome)
    ≠ JData (JNum 0).
Proof.
  split; [reflexivity |]. split.
  - vm_compute. reflexivity.
  - vm_compute. discriminate.
Qed.

(** ** The one-shot read *)

(** C8. [getFromChromeStore] never rejects: for every key, defaultValue,
    persistence mode and storage contents its promise is fulfilled, with
    the parsed item when the key is present and its item parses, and with
    defaultValue when the key is absent or the item does not parse. *)
Theorem fetch_never_rejects `{JSONHost} (key : string) (D : Json)
    (persist : option bool) (c : ChromeStore.Chrome) :
  let area := ChromeStore.storage (ChromeStore.persist_arg persist) c in
  let promise := ChromeStore.getFromChromeStore key D persist c in
  (∃ v, promise = ChromeStore.Fulfilled v)
  ∧ (∀ raw parsed, area !! key = Some raw →
                   JSON_parse (JData raw) = Normal parsed →
                   promise = ChromeStore.Fulfilled parsed)
  ∧ (∀ raw e, area !! key = Some raw →
              JSON_parse (JData raw) = Throw e →
              promise = ChromeStore.Fulfilled D)
  ∧ (area !! key = None → promise = ChromeStore.Fulfilled D).
Proof.
  intros area promise. subst area promise.
  unfold ChromeStore.getFromChromeStore, ChromeStore.fetch_callback.
  rewrite prop_get. unfold ChromeStore.prop, property.
  destruct (ChromeStore.storage _ c !! key) as [raw|] eqn:Hraw;
    [simpl; destruct (JSON_parse (JData raw)) as [parsed | e] eqn:Hparse
    | destruct (is_prototype_member key); simpl];
    (split; [by eexists |]);
    repeat split; intros; simplify_eq; congruence.
Qed.

Lemma fetch_never_rejects_witness :
  ChromeStore.getFromChromeStore (H := RefHost.host) "n" (JNum 0) (Some true)
    (Scenarios.chrome_with true "n" (JStr "41"))
  = ChromeStore.Fulfilled (JNum 41)
  ∧ ChromeStore.getFromChromeStore (H := RefHost.host) "n" (JNum 0)
      (Some true) (Scenarios.chrome_with true "n" (JStr "{41"))
    = ChromeStore.Fulfilled (JNum 0)
  ∧ ChromeStore.getFromChromeStore (H := RefHost.host) "n" (JNum 0) None
      (Scenarios.chrome_with true "n" (JStr "41"))
    = ChromeStore.Fulfilled (JNum 0).
Proof.
  split; [| split].
  - apply (proj1 (proj2 (fetch_never_rejects (H := RefHost.host) "n" (JNum 0)
                    (Some true) (Scenarios.chrome_with true "n" (JStr "41"))))
             (JStr "41")).
    + reflexivity.
    + vm_compute. reflexivity.
  - apply (proj1 (proj2 (proj2 (fetch_never_rejects (H := RefHost.host) "n"
                    (JNum 0) (Some true)
                    (Scenarios.chrome_with true "n" (JStr "{41")))))
             (JStr "{41")
             (SyntaxError "Unexpected token or end of JSON input")).
    + reflexivity.
    + vm_compute. reflexivity.
  - apply (proj2 (proj2 (proj2 (fetch_never_rejects (H := RefHost.host) "n"
                    (JNum 0) None
                    (Scenarios.chrome_with true "n" (JStr "41")))))).
    reflexivity.
Defined.

(** ** Default persistence modes *)

(** C10. With the [persist] argument omitted, [useSimpleStore] works on the
    durable area and [useChromeStore] and [getFromChromeStore] on the
    session area, for every key and defaultValue.  The initial read and the
    listener of [useSimpleStore] take the entry of [localStorage], whatever
    [sessionStorage] holds, and its setter writes [localStorage] only.  The
    initial read of [useChromeStore] and [getFromChromeStore] take the item
    of the session area, whatever the local area holds; the listener
    adopts changes of the area "session" and passes over those of "local";
    the setter writes the session area only.  An omitted argument behaves
    as [true] in the first function and as [false] in the other two. *)
Theorem default_persistence `{JSONHost} (key : string) (D : Json) :
  (∀ w : SimpleStore.Window,
     let entry := SimpleStore.localStorage w !! key in
     (∀ s, entry = Some s → s ≠ "" →
           SimpleStore.mount key D None w = JSON_parse (JStr s))
     ∧ (entry = None → SimpleStore.mount key D None w = Normal D)
     ∧ (∀ s ev value, entry = Some s →
           SimpleStore.listener key None ev w value = JSON_parse (JStr s))
     ∧ (∀ value V,
          let w' := snd (snd (SimpleStore.useSimpleStore key None value)
                           (Literal V) w) in
          SimpleStore.localStorage w' !! key = Some (JSON_stringify V)
          ∧ SimpleStore.sessionStorage w' = SimpleStore.sessionStorage w))
  ∧ (∀ c : ChromeStore.Chrome,
       let item := ChromeStore.session c !! key in
       (∀ raw parsed, item = Some raw →
          JSON_parse (JData raw) = Normal parsed →
          ChromeStore.value (ChromeStore.mount key D None c) = JData parsed)
       ∧ (item = None → is_prototype_member key = false →
          ChromeStore.value (ChromeStore.mount key D None c) = JData D)
       ∧ (∀ ev change parsed st,
            ChromeStore.areaName ev = "session" →
            ChromeStore.changes ev !! key = Some change →
            JSON_parse (ChromeStore.newValue change) = Normal parsed →
            ChromeStore.value (ChromeStore.listener key None ev st)
            = JData parsed)
       ∧ (∀ ev st,
            ChromeStore.areaName ev = "local" →
            ChromeStore.listener key None ev st = st)
       ∧ (∀ st V,
            let c' := snd (snd (fst (ChromeStore.useChromeStore key None st))
                             (Literal V) c) in
            ChromeStore.session c' !! key = Some (JStr (JSON_stringify V))
            ∧ ChromeStore.local c' = ChromeStore.local c))
  ∧ (∀ c : ChromeStore.Chrome,
       let item := ChromeStore.session c !! key in
       (∀ raw parsed, item = Some raw →
          JSON_parse (JData raw) = Normal parsed →
          ChromeStore.getFromChromeStore key D None c
          = ChromeStore.Fulfilled parsed)
       ∧ (item = None →
          ChromeStore.getFromChromeStore key D None c
          = ChromeStore.Fulfilled D))
  ∧ (SimpleStore.mount key D None = SimpleStore.mount key D (Some true)
     ∧ SimpleStore.listener key None = SimpleStore.listener key (Some true)
     ∧ SimpleStore.useSimpleStore key None
       = SimpleStore.useSimpleStore key (Some true)
     ∧ ChromeStore.mount key D None = ChromeStore.mount key D (Some false)
     ∧ ChromeStore.listener key None = ChromeStore.listener key (Some false)
     ∧ ChromeStore.useChromeStore key None
       = ChromeStore.useChromeStore key (Some false)
     ∧ ChromeStore.getFromChromeStore key D None
       = ChromeStore.getFromChromeStore key D (Some false)).
Proof.
  split; [| split; [| split]].
  - intros w entry. subst entry. split; [| split; [| split]].
    + intros s Hentry Hne. by apply (initialValue_entry key D true w s).
    + intros Hentry. by apply (initialValue_no_entry key D true w).
    + intros s ev value Hentry.
      by apply (handleStorageChange_entry key true ev w value s).
    + intros value V. simpl. split; [apply getItem_setItem | done].
  - intros c item. subst item. split; [| split; [| split; [| split]]].
    + intros raw parsed Hraw Hparse.
      unfold ChromeStore.mount, ChromeStore.initialRead.
      rewrite (read_callback_hit _ _ _ raw) by (by rewrite lookup_get).
      by rewrite Hparse.
    + intros Hraw Hplain. unfold ChromeStore.mount, ChromeStore.initialRead.
      by rewrite read_callback_miss by (by rewrite ?lookup_get).
    + intros ev change parsed st Harea Hkey Hparse.
      unfold ChromeStore.listener.
      rewrite (handleStorageChange_match _ _ _ change) by done.
      by rewrite Hparse.
    + intros ev st Harea. unfold ChromeStore.listener.
      apply handleStorageChange_other_area. by rewrite Harea.
    + intros st V. simpl. split; [apply lookup_set_singleton | done].
  - intros c item. subst item.
    unfold ChromeStore.getFromChromeStore, ChromeStore.fetch_callback.
    rewrite prop_get. unfold ChromeStore.prop, property. simpl. split.
    + intros raw parsed -> Hparse. simpl. by rewrite Hparse.
    + intros ->. by destruct (is_prototype_member key).
  - by repeat split.
Qed.

Lemma default_persistence_witness :
  SimpleStore.mount (H := RefHost.host) "n" JNull None
    {| SimpleStore.localStorage := {[ "n" := "[1]" ]};
       SimpleStore.sessionStorage := {[ "n" := "[2]" ]} |}
  = Normal (JArr [JNum 1])
  ∧ ChromeStore.value
      (ChromeStore.mount (H := RefHost.host) "n" JNull None
         {| ChromeStore.local := {[ "n" := JStr "7" ]};
            ChromeStore.session := {[ "n" := JStr "41" ]} |})
    = JData (JNum 41)
  ∧ ChromeStore.getFromChromeStore (H := RefHost.host) "n" JNull None
      {| ChromeStore.local := {[ "n" := JStr "7" ]};
         ChromeStore.session := {[ "n" := JStr "41" ]} |}
    = ChromeStore.Fulfilled (JNum 41)
  ∧ ChromeStore.getFromChromeStore (H := RefHost.host) "n" JNull None
      {| ChromeStore.local := {[ "n" := JStr "7" ]};
         ChromeStore.session := ∅ |}
    = ChromeStore.Fulfilled JNull.
Proof.
  pose proof (default_persistence (H := RefHost.host) "n" JNull)
    as (Hbrowser & Hhook & Hfetch & _).
  split; [| split; [| split]].
  - etransitivity.
    + apply (proj1 (Hbrowser _) "[1]"); [reflexivity | discriminate].
    + vm_compute. reflexivity.
  - apply (proj1 (Hhook _) (JStr "41")); [reflexivity |].
    vm_compute. reflexivity.
  - apply (proj1 (Hfetch _) (JStr "41")); [reflexivity |].
    vm_compute. reflexivity.
  - apply (proj2 (Hfetch _)). reflexivity.
Defined.

(** * Further properties of the code *)

(** ** The browser setter: what it writes and what it leaves *)

Section BrowserSetter.
Import SimpleStore.
Context `{JSONHost}.

(** The entries a setter call leaves alone. *)
Lemma setStoredValue_other_entry key persist value valueAction w k p :
  k ≠ key ∨ p ≠ persist →
  getItem (storage p (snd (setStoredValue key persist value valueAction w))) k
  = getItem (storage p w) k.
Proof.
  intros Hother. unfold setStoredValue, setItem, getItem. simpl.
  destruct (decide (p = persist)) as [-> | Hp].
  - rewrite storage_with_storage.
    destruct Hother as [Hk | Hp]; [| done]. by rewrite lookup_insert_ne.
  - by destruct p, persist.
Qed.

Lemma setStoredValue_entry key persist value valueAction w :
  getItem (storage persist
             (snd (setStoredValue key persist value valueAction w))) key
  = Some (JSON_stringify
            (fst (setStoredValue key persist value valueAction w))).
Proof.
  unfold setStoredValue. simpl. rewrite storage_with_storage.
  apply getItem_setItem.
Qed.

End BrowserSetter.

(** X1. A setter call of [useSimpleStore] changes one entry only: every
    other key of the selected area, and every key of the other area, reads
    as before the call. *)
Theorem browser_setter_frame `{JSONHost} (key : string)
    (persist : option bool) (value : Json)
    (valueAction : SetStateAction Json) (w : SimpleStore.Window)
    (k : string) (p : bool) :
  k ≠ key ∨ p ≠ SimpleStore.persist_arg persist →
  let w' := snd (snd (SimpleStore.useSimpleStore key persist value)
                   valueAction w) in
  SimpleStore.getItem (SimpleStore.storage p w') k
  = SimpleStore.getItem (SimpleStore.storage p w) k.
Proof. intros Hother. by apply setStoredValue_other_entry. Qed.

Lemma browser_setter_frame_witness :
  SimpleStore.getItem
    (SimpleStore.storage true
       (snd (snd (SimpleStore.useSimpleStore (H := RefHost.host)
                    "count" None (JNum 0))
               (Literal (JNum 1))
               (Scenarios.window_with true "name" "7"))))
    "name"
  = Some "7".
Proof.
  etransitivity.
  - apply (browser_setter_frame (H := RefHost.host) "count" None (JNum 0)
             (Literal (JNum 1)) (Scenarios.window_with true "name" "7")
             "name" true).
    left. discriminate.
  - reflexivity.
Defined.

(** X2. Two calls through the setter of one render of [useSimpleStore]:
    both closures hold the same [value], so the second call undoes the
    first; state and storage end as if only the second had been made. *)
Theorem browser_setter_last_call_wins `{JSONHost} (key : string)
    (persist : option bool) (value : Json)
    (first second : SetStateAction Json) (w : SimpleStore.Window) :
  let setter := snd (SimpleStore.useSimpleStore key persist value) in
  setter second (snd (setter first w)) = setter second w.
Proof.
  simpl. unfold SimpleStore.setStoredValue. f_equal.
  destruct (SimpleStore.persist_arg persist); simpl;
    unfold SimpleStore.setItem; by rewrite insert_insert_eq.
Qed.

(** X3. What a setter call of [useSimpleStore] wrote is what a later mount
    on the same key and area starts from, provided the host parses the
    serialised text back to the value and that text is not empty. *)
Theorem browser_remount_after_write `{JSONHost} (key : string)
    (persist : option bool) (D value : Json)
    (valueAction : SetStateAction Json) (w : SimpleStore.Window) :
  let after := snd (SimpleStore.useSimpleStore key persist value)
                 valueAction w in
  JSON_stringify (fst after) ≠ "" →
  JSON_parse (JStr (JSON_stringify (fst after))) = Normal (fst after) →
  SimpleStore.mount key D persist (snd after) = Normal (fst after).
Proof.
  intros after Hnonempty Hparse. unfold SimpleStore.mount.
  rewrite (initialValue_entry _ _ _ _ (JSON_stringify (fst after)));
    [done | apply setStoredValue_entry | done].
Qed.

Lemma browser_remount_after_write_witness :
  SimpleStore.mount (H := RefHost.host) "cart" JNull (Some false)
    (snd (snd (SimpleStore.useSimpleStore (H := RefHost.host)
                 "cart" (Some false) (JArr [JNum 1]))
            (Updater (λ prev, JArr [prev; JStr "x"])) Scenarios.no_window))
  = Normal (JArr [JArr [JNum 1]; JStr "x"]).
Proof.
  apply (browser_remount_after_write (H := RefHost.host) "cart" (Some false)
           JNull (JArr [JNum 1]) (Updater (λ prev, JArr [prev; JStr "x"]))
           Scenarios.no_window).
  - vm_compute. discriminate.
  - vm_compute. reflexivity.
Defined.

(** X4. After a setter call of [useSimpleStore], the listener of any
    binding on the same key and area, whatever it holds and whatever the
    event names, adopts the written value, provided the host parses the
    serialised text back to the value. *)
Theorem browser_listener_after_write `{JSONHost} (key : string)
    (persist : option bool) (value other : Json)
    (valueAction : SetStateAction Json) (w : SimpleStore.Window)
    (ev : SimpleStore.StorageEvent) :
  let after := snd (SimpleStore.useSimpleStore key persist value)
                 valueAction w in
  JSON_parse (JStr (JSON_stringify (fst after))) = Normal (fst after) →
  SimpleStore.listener key persist ev (snd after) other = Normal (fst after).
Proof.
  intros after Hparse. unfold SimpleStore.listener.
  rewrite (handleStorageChange_entry _ _ _ _ _ (JSON_stringify (fst after)));
    [done | apply setStoredValue_entry].
Qed.

Lemma browser_listener_after_write_witness :
  SimpleStore.listener (H := RefHost.host) "theme" None
    Scenarios.other_event
    (snd (snd (SimpleStore.useSimpleStore (H := RefHost.host)
                 "theme" None (JStr "light"))
            (Literal (JStr "dark")) Scenarios.no_window))
    (JStr "light")
  = Normal (JStr "dark").
Proof.
  apply (browser_listener_after_write (H := RefHost.host) "theme" None
           (JStr "light") (JStr "light") (Literal (JStr "dark"))
           Scenarios.no_window Scenarios.other_event).
  vm_compute. reflexivity.
Defined.

(** X5. Bindings of [useSimpleStore] on different keys, or on different
    areas, do not interfere: a setter call of one changes neither what a
    mount of the other starts from nor what its listener does. *)
Theorem browser_bindings_independent `{JSONHost} (key key' : string)
    (persist persist' : option bool) (D value' : Json)
    (valueAction : SetStateAction Json) (w : SimpleStore.Window) :
  key ≠ key'
  ∨ SimpleStore.persist_arg persist ≠ SimpleStore.persist_arg persist' →
  let w' := snd (snd (SimpleStore.useSimpleStore key' persist' value')
                   valueAction w) in
  SimpleStore.mount key D persist w' = SimpleStore.mount key D persist w
  ∧ ∀ ev value,
      SimpleStore.listener key persist ev w' value
      = SimpleStore.listener key persist ev w value.
Proof.
  intros Hother w'.
  assert (SimpleStore.getItem
            (SimpleStore.storage (SimpleStore.persist_arg persist) w') key
          = SimpleStore.getItem
              (SimpleStore.storage (SimpleStore.persist_arg persist) w) key)
    as Hentry by by apply setStoredValue_other_entry.
  unfold SimpleStore.mount, SimpleStore.listener, SimpleStore.initialValue,
    SimpleStore.handleStorageChange.
  by rewrite Hentry.
Qed.

Lemma browser_bindings_independent_witness :
  SimpleStore.mount (H := RefHost.host) "a" JNull None
    (snd (snd (SimpleStore.useSimpleStore (H := RefHost.host)
                 "a" (Some false) JNull)
            (Literal (JNum 2)) (Scenarios.window_with true "a" "1")))
  = SimpleStore.mount (H := RefHost.host) "a" JNull None
      (Scenarios.window_with true "a" "1").
Proof.
  apply (browser_bindings_independent (H := RefHost.host) "a" "a" None
           (Some false) JNull JNull (Literal (JNum 2))
           (Scenarios.window_with true "a" "1")).
  right. discriminate.
Defined.

(** X6. The listener of [useSimpleStore] is idempotent while storage stays
    as it is: the value it yields is the value it yields again, for any
    later event. *)
Theorem browser_listener_idempotent `{JSONHost} (key : string)
    (persist : option bool) (ev ev' : SimpleStore.StorageEvent)
    (w : SimpleStore.Window) (value value' : Json) :
  SimpleStore.listener key persist ev w value = Normal value' →
  SimpleStore.listener key persist ev' w value' = Normal value'.
Proof.
  unfold SimpleStore.listener, SimpleStore.handleStorageChange.
  destruct (SimpleStore.getItem _ key); [done | congruence].
Qed.

Lemma browser_listener_idempotent_witness :
  SimpleStore.listener (H := RefHost.host) "n" None Scenarios.other_event
    (Scenarios.window_with true "n" "[4]") (JArr [JNum 4])
  = Normal (JArr [JNum 4]).
Proof.
  apply (browser_listener_idempotent (H := RefHost.host) "n" None
           Scenarios.other_event Scenarios.other_event
           (Scenarios.window_with true "n" "[4]") JNull (JArr [JNum 4])).
  vm_compute. reflexivity.
Defined.

(** ** The extension setter: what it writes and what it leaves *)

Section ChromeSetter.
Import ChromeStore.
Context `{JSONHost}.

Lemma chrome_setter_other_item key persist value valueAction st c k p :
  k ≠ key ∨ p ≠ persist →
  storage p (snd (setStoredValue key persist value valueAction st c)) !! k
  = storage p c !! k.
Proof.
  intros Hother. unfold setStoredValue, set. simpl.
  destruct (decide (p = persist)) as [-> | Hp].
  - rewrite chrome_storage_with_storage.
    destruct Hother as [Hk | Hp]; [| done].
    apply lookup_union_r. by apply lookup_singleton_ne.
  - by destruct p, persist.
Qed.

Lemma chrome_setter_item key persist value valueAction st c :
  storage persist (snd (setStoredValue key persist value valueAction st c))
    !! key
  = Some (JStr (JSON_stringify
                  (match valueAction with
                   | Updater f => f value
                   | Literal v => v
                   end))).
Proof.
  unfold setStoredValue. simpl. rewrite chrome_storage_with_storage.
  apply lookup_set_singleton.
Qed.

(** The handler writes the [value] cell only. *)
Lemma handleStorageChange_hasLoaded key persist ev st :
  hasLoaded (handleStorageChange key persist ev st) = hasLoaded st.
Proof.
  unfold handleStorageChange.
  destruct (area_matches persist (areaName ev)); [| done].
  destruct (truthy_change (property (changes ev) key)); [| done].
  destruct (JSON_parse (newValue_of (property (changes ev) key)))
    as [parsed | e]; [done |].
  by destruct (instanceof_SyntaxError e).
Qed.

(** A read of [key] sees nothing but the item under [key]. *)
Lemma getFromChromeStore_item key D persist c c' :
  storage (persist_arg persist) c !! key
  = storage (persist_arg persist) c' !! key →
  getFromChromeStore key D persist c = getFromChromeStore key D persist c'.
Proof.
  intros Hitem. unfold getFromChromeStore, fetch_callback.
  rewrite !prop_get. unfold prop, property. by rewrite Hitem.
Qed.

Lemma initialRead_item key persist c c' st :
  storage persist c !! key = storage persist c' !! key →
  initialRead key persist c st = initialRead key persist c' st.
Proof.
  intros Hitem. unfold initialRead, read_callback.
  rewrite !prop_get. unfold prop, property. by rewrite Hitem.
Qed.

End ChromeSetter.

(** X7. A setter call of [useChromeStore] changes one item and one state
    cell only: every other key of the selected area and every key of the
    other area reads as before, and the loaded flag keeps its value. *)
Theorem chrome_setter_frame `{JSONHost} (key : string)
    (persist : option bool) (st : ChromeStore.State)
    (valueAction : SetStateAction JSValue) (c : ChromeStore.Chrome) :
  let after := snd (fst (ChromeStore.useChromeStore key persist st))
                 valueAction c in
  ChromeStore.hasLoaded (fst after) = ChromeStore.hasLoaded st
  ∧ ∀ k p, k ≠ key ∨ p ≠ ChromeStore.persist_arg persist →
           ChromeStore.storage p (snd after) !! k
           = ChromeStore.storage p c !! k.
Proof.
  split; [done |]. intros k p Hother. by apply chrome_setter_other_item.
Qed.

Lemma chrome_setter_frame_witness :
  ChromeStore.storage true
    (snd (snd (fst (ChromeStore.useChromeStore (H := RefHost.host)
                      "a" None (ChromeStore.initialState JNull)))
            (Literal (JNum 2)) (Scenarios.chrome_with true "a" (JStr "1"))))
    !! "a"
  = Some (JStr "1").
Proof.
  etransitivity.
  - apply (chrome_setter_frame (H := RefHost.host) "a" None
             (ChromeStore.initialState JNull) (Literal (JNum 2))
             (Scenarios.chrome_with true "a" (JStr "1"))).
    right. discriminate.
  - reflexivity.
Defined.

(** X8. Two calls through the setter of one render of [useChromeStore]:
    both closures hold the same [value], so the second call undoes the
    first; state and storage end as if only the second had been made. *)
Theorem chrome_setter_last_call_wins `{JSONHost} (key : string)
    (persist : option bool) (st : ChromeStore.State)
    (first second : SetStateAction JSValue) (c : ChromeStore.Chrome) :
  let setter := snd (fst (ChromeStore.useChromeStore key persist st)) in
  setter second (snd (setter first c)) = setter second c.
Proof.
  simpl. unfold ChromeStore.setStoredValue, ChromeStore.set. f_equal.
  destruct (ChromeStore.persist_arg persist); simpl; f_equal;
    rewrite <- !insert_union_singleton_l; apply insert_insert_eq.
Qed.

(** X9. What a setter call of [useChromeStore] wrote is what
    [getFromChromeStore] on the same key and area resolves to, provided
    the host parses the serialised text back to the value. *)
Theorem fetch_after_write `{JSONHost} (key : string) (persist : option bool)
    (D V : Json) (st : ChromeStore.State) (c : ChromeStore.Chrome) :
  let setter := snd (fst (ChromeStore.useChromeStore key persist st)) in
  JSON_parse (JData (JStr (JSON_stringify V))) = Normal V →
  ChromeStore.getFromChromeStore key D persist (snd (setter (Literal V) c))
  = ChromeStore.Fulfilled V.
Proof.
  intros setter Hparse. subst setter.
  unfold ChromeStore.getFromChromeStore, ChromeStore.fetch_callback.
  rewrite prop_get.
  rewrite (prop_Some _ _ (JStr (JSON_stringify V)));
    [simpl; by rewrite Hparse |].
  apply (chrome_setter_item key _ (ChromeStore.value st) (Literal V)).
Qed.

Lemma fetch_after_write_witness :
  ChromeStore.getFromChromeStore (H := RefHost.host) "user" JNull (Some true)
    (snd (snd (fst (ChromeStore.useChromeStore (H := RefHost.host) "user"
                      (Some true) (ChromeStore.initialState JNull)))
            (Literal (JObj [("id", JNum 7)])) Scenarios.no_chrome))
  = ChromeStore.Fulfilled (JObj [("id", JNum 7)]).
Proof.
  apply (fetch_after_write (H := RefHost.host) "user" (Some true) JNull
           (JObj [("id", JNum 7)]) (ChromeStore.initialState JNull)
           Scenarios.no_chrome).
  vm_compute. reflexivity.
Defined.

(** X10. What a setter call of [useChromeStore] wrote is what a later mount
    on the same key and area holds once its initial read completes, with
    the loaded flag set, provided the host parses the serialised text back
    to the value. *)
Theorem chrome_remount_after_write `{JSONHost} (key : string)
    (persist : option bool) (D V : Json) (st : ChromeStore.State)
    (c : ChromeStore.Chrome) :
  let setter := snd (fst (ChromeStore.useChromeStore key persist st)) in
  JSON_parse (JData (JStr (JSON_stringify V))) = Normal V →
  ChromeStore.mount key D persist (snd (setter (Literal V) c))
  = {| ChromeStore.value := JData V; ChromeStore.hasLoaded := true |}.
Proof.
  intros setter Hparse. subst setter.
  unfold ChromeStore.mount, ChromeStore.initialRead, ChromeStore.read_callback.
  rewrite prop_get.
  rewrite (prop_Some _ _ (JStr (JSON_stringify V)));
    [simpl; by rewrite Hparse |].
  apply (chrome_setter_item key _ (ChromeStore.value st) (Literal V)).
Qed.

Lemma chrome_remount_after_write_witness :
  ChromeStore.mount (H := RefHost.host) "tags" JNull None
    (snd (snd (fst (ChromeStore.useChromeStore (H := RefHost.host) "tags"
                      None (ChromeStore.initialState JNull)))
            (Literal (JArr [JStr "a"; JStr "b"])) Scenarios.no_chrome))
  = {| ChromeStore.value := JData (JArr [JStr "a"; JStr "b"]);
       ChromeStore.hasLoaded := true |}.
Proof.
  apply (chrome_remount_after_write (H := RefHost.host) "tags" None JNull
           (JArr [JStr "a"; JStr "b"]) (ChromeStore.initialState JNull)
           Scenarios.no_chrome).
  vm_compute. reflexivity.
Defined.

(** X11. Reads of the extension module on different keys, or on different
    areas, are untouched by a setter call: [getFromChromeStore] resolves to
    the same value and a mount holds the same state as before the call. *)
Theorem chrome_reads_independent `{JSONHost} (key key' : string)
    (persist persist' : option bool) (D : Json) (st : ChromeStore.State)
    (valueAction : SetStateAction JSValue) (c : ChromeStore.Chrome) :
  key ≠ key'
  ∨ ChromeStore.persist_arg persist ≠ ChromeStore.persist_arg persist' →
  let c' := snd (snd (fst (ChromeStore.useChromeStore key' persist' st))
                   valueAction c) in
  ChromeStore.getFromChromeStore key D persist c'
  = ChromeStore.getFromChromeStore key D persist c
  ∧ ChromeStore.mount key D persist c' = ChromeStore.mount key D persist c.
Proof.
  intros Hother c'.
  assert (ChromeStore.storage (ChromeStore.persist_arg persist) c' !! key
          = ChromeStore.storage (ChromeStore.persist_arg persist) c !! key)
    as Hitem by by apply chrome_setter_other_item.
  split.
  - by apply getFromChromeStore_item.
  - unfold ChromeStore.mount. by apply initialRead_item.
Qed.

Lemma chrome_reads_independent_witness :
  ChromeStore.getFromChromeStore (H := RefHost.host) "a" JNull None
    (snd (snd (fst (ChromeStore.useChromeStore (H := RefHost.host) "b" None
                      (ChromeStore.initialState JNull)))
            (Literal (JNum 2)) (Scenarios.chrome_with false "a" (JStr "1"))))
  = ChromeStore.getFromChromeStore (H := RefHost.host) "a" JNull None
      (Scenarios.chrome_with false "a" (JStr "1")).
Proof.
  apply (chrome_reads_independent (H := RefHost.host) "a" "b" None None JNull
           (ChromeStore.initialState JNull) (Literal (JNum 2))
           (Scenarios.chrome_with false "a" (JStr "1"))).
  left. discriminate.
Defined.

(** ** The loaded flag over the life of an extension binding *)

Section LoadedFlag.
Import ChromeStore History.
Context `{JSONHost}.

Lemma step_hasLoaded key persist a sc :
  hasLoaded (fst (step key persist a sc))
  = hasLoaded (fst sc) || is_read a.
Proof.
  destruct a as [| ev | valueAction | c]; simpl.
  - by rewrite orb_true_r.
  - unfold listener. by rewrite handleStorageChange_hasLoaded, orb_false_r.
  - by rewrite orb_false_r.
  - by rewrite orb_false_r.
Qed.

End LoadedFlag.

(** X12. The loaded flag of [useChromeStore] over any history of read
    completions, change events, setter calls and outside writes: it is true
    afterwards exactly when it was true before or a read completed.  So it
    stays false until the initial read completes and is never reset. *)
Theorem loaded_flag_history `{JSONHost} (key : string)
    (persist : option bool) (acts : list History.Action)
    (sc : ChromeStore.State * ChromeStore.Chrome) :
  ChromeStore.hasLoaded (fst (History.run key persist acts sc))
  = ChromeStore.hasLoaded (fst sc) || existsb History.is_read acts.
Proof.
  unfold History.run. revert sc.
  induction acts as [| a acts IH]; intros sc; simpl.
  - by rewrite orb_false_r.
  - by rewrite IH, step_hasLoaded, orb_assoc.
Qed.

(** ** The last matching change decides *)

Section LastChange.
Import ChromeStore.
Context `{JSONHost}.

Lemma deliver_hasLoaded key persist evs st :
  hasLoaded (deliver key persist evs st) = hasLoaded st.
Proof.
  unfold deliver. revert st.
  induction evs as [| ev evs IH]; intros st; simpl; [done |].
  rewrite IH. apply handleStorageChange_hasLoaded.
Qed.

Lemma deliver_snoc key persist evs ev st :
  deliver key persist (evs ++ [ev]) st
  = listener key persist ev (deliver key persist evs st).
Proof. unfold deliver. by rewrite fold_left_app. Qed.

End LastChange.

(** X13. When the newest change event is one for the binding's key in the
    binding's area, and its payload parses or fails with a syntax error,
    the state of [useChromeStore] after a whole run of events is the state
    after that event alone: earlier events leave no trace. *)
Theorem last_matching_change_decides `{JSONHost} (key : string)
    (persist : option bool) (evs : list ChromeStore.ChangeEvent)
    (ev : ChromeStore.ChangeEvent) (change : ChromeStore.StorageChange)
    (st : ChromeStore.State) :
  ChromeStore.areaName ev
  = ChromeStore.expected_area (ChromeStore.persist_arg persist) →
  ChromeStore.changes ev !! key = Some change →
  (∀ e, JSON_parse (ChromeStore.newValue change) = Throw e →
        instanceof_SyntaxError e = true) →
  ChromeStore.deliver key persist (evs ++ [ev]) st
  = ChromeStore.listener key persist ev st.
Proof.
  intros Harea Hkey Hsyntax. rewrite deliver_snoc.
  unfold ChromeStore.listener.
  rewrite !(handleStorageChange_match _ _ _ change) by done.
  pose proof (deliver_hasLoaded key persist evs st) as Hloaded.
  destruct (JSON_parse (ChromeStore.newValue change)) as [parsed | e].
  - unfold ChromeStore.setValue. by rewrite Hloaded.
  - rewrite (Hsyntax e eq_refl). unfold ChromeStore.setValue.
    by rewrite Hloaded.
Qed.

Lemma last_matching_change_decides_witness :
  ChromeStore.deliver (H := RefHost.host) "n" None
    ([Scenarios.change_of "session" "n" (JStr "1");
      Scenarios.change_of "session" "n" JUndefined]
     ++ [Scenarios.change_of "session" "n" (JStr "[2]")])
    (ChromeStore.initialState JNull)
  = ChromeStore.listener (H := RefHost.host) "n" None
      (Scenarios.change_of "session" "n" (JStr "[2]"))
      (ChromeStore.initialState JNull).
Proof.
  apply (last_matching_change_decides (H := RefHost.host) "n" None
           [Scenarios.change_of "session" "n" (JStr "1");
            Scenarios.change_of "session" "n" JUndefined]
           (Scenarios.change_of "session" "n" (JStr "[2]"))
           {| ChromeStore.oldValue := JUndefined;
              ChromeStore.newValue := JStr "[2]" |}
           (ChromeStore.initialState JNull) eq_refl eq_refl).
  intros e He. vm_compute in He. discriminate.
Defined.

(** ** The two reads of the extension module side by side *)

(** X14. [getFromChromeStore] and the initial read of [useChromeStore], on
    the same key, defaultValue and area: where the key's item parses, or
    the key is absent and names no member of [Object.prototype], the
    promise resolves to the very value the hook holds.  They part where the
    item does not parse, the promise resolving to defaultValue and the hook
    holding the raw item, and where an absent key names a member of
    [Object.prototype], the promise resolving to defaultValue and the hook
    holding what the state setter makes of that member. *)
Theorem fetch_and_hook_reads `{JSONHost} (key : string) (D : Json)
    (persist : option bool) (c : ChromeStore.Chrome) :
  let area := ChromeStore.storage (ChromeStore.persist_arg persist) c in
  let promise := ChromeStore.getFromChromeStore key D persist c in
  let held := ChromeStore.value (ChromeStore.mount key D persist c) in
  ((∀ raw e, area !! key = Some raw → JSON_parse (JData raw) ≠ Throw e) →
   (area !! key = None → is_prototype_member key = false) →
   ∃ v, promise = ChromeStore.Fulfilled v ∧ held = JData v)
  ∧ (∀ raw e, area !! key = Some raw → JSON_parse (JData raw) = Throw e →
              promise = ChromeStore.Fulfilled D ∧ held = JData raw)
  ∧ (area !! key = None → is_prototype_member key = true →
     promise = ChromeStore.Fulfilled D
     ∧ held = ChromeStore.value
                (ChromeStore.setValue_read (ReadInherited key)
                   (ChromeStore.initialState D))).
Proof.
  intros area promise held. subst area promise held.
  unfold ChromeStore.getFromChromeStore, ChromeStore.fetch_callback,
    ChromeStore.mount, ChromeStore.initialRead, ChromeStore.read_callback.
  rewrite !prop_get. unfold ChromeStore.prop, property.
  destruct (ChromeStore.storage _ c !! key) as [raw |] eqn:Hraw.
  - simpl. destruct (JSON_parse (JData raw)) as [parsed | e] eqn:Hparse.
    + split; [by eexists |]. split; [| done].
      intros raw' e' [= <-]. congruence.
    + split; [| split; [| done]].
      * intros Hok. by destruct (Hok raw e).
      * by intros raw' e' [= <-] _.
  - destruct (is_prototype_member key) eqn:Hmember; simpl.
    + split; [| split; [| done]].
      * intros _ Hplain. by specialize (Hplain eq_refl).
      * intros raw e. discriminate.
    + split; [by eexists |]. split; [| done]. intros raw e. discriminate.
Qed.

Lemma fetch_and_hook_reads_witness :
  (∃ v, ChromeStore.getFromChromeStore (H := RefHost.host) "n" JNull None
          (Scenarios.chrome_with false "n" (JStr "[1]"))
        = ChromeStore.Fulfilled v
        ∧ ChromeStore.value
            (ChromeStore.mount (H := RefHost.host) "n" JNull None
               (Scenarios.chrome_with false "n" (JStr "[1]")))
          = JData v)
  ∧ (ChromeStore.getFromChromeStore (H := RefHost.host) "n" JNull None
       (Scenarios.chrome_with false "n" (JStr "[1"))
     = ChromeStore.Fulfilled JNull
     ∧ ChromeStore.value
         (ChromeStore.mount (H := RefHost.host) "n" JNull None
            (Scenarios.chrome_with false "n" (JStr "[1")))
       = JData (JStr "[1"))
  ∧ (ChromeStore.getFromChromeStore (H := RefHost.host) "toString" JNull
       None Scenarios.no_chrome
     = ChromeStore.Fulfilled JNull
     ∧ ChromeStore.value
         (ChromeStore.mount (H := RefHost.host) "toString" JNull None
            Scenarios.no_chrome)
       = JData (JStr "[object Undefined]")).
Proof.
  split; [| split].
  - apply (proj1 (fetch_and_hook_reads (H := RefHost.host) "n" JNull None
                    (Scenarios.chrome_with false "n" (JStr "[1]")))).
    + intros raw e Hraw. vm_compute in Hraw. injection Hraw as <-.
      vm_compute. discriminate.
    + intros Hraw. vm_compute in Hraw. discriminate.
  - apply (proj1 (proj2 (fetch_and_hook_reads (H := RefHost.host) "n" JNull
                           None (Scenarios.chrome_with false "n" (JStr "[1"))))
             (JStr "[1")
             (SyntaxError "Unexpected token or end of JSON input")).
    + reflexivity.
    + vm_compute. reflexivity.
  - apply (proj2 (proj2 (fetch_and_hook_reads (H := RefHost.host) "toString"
                           JNull None Scenarios.no_chrome))).
    + reflexivity.
    + reflexivity.
Defined.

(** ** Which arguments the registered listener holds *)

Section Renders.
Import Lifecycle.

Lemma same_args a b :
  same_key a b && same_storage a b = true → a = b.
Proof.
  destruct a as [ka pa], b as [kb pb]. unfold same_key, same_storage. simpl.
  intros [Hk Hp]%andb_true_iff.
  apply String.eqb_eq in Hk. apply Bool.eqb_prop in Hp. by subst.
Qed.

Lemma browser_render_in_step next m :
  listening m = rendered m →
  listening (render browser_effect_runs next m)
  = rendered (render browser_effect_runs next m).
Proof.
  intros Hm. unfold render, browser_effect_runs. simpl.
  destruct (same_key (rendered m) next && same_storage (rendered m) next)
    eqn:Hsame; simpl; [| done].
  rewrite Hm. by apply same_args.
Qed.

Lemma chrome_render_same_key next m :
  arg_key (listening m) = arg_key (rendered m) →
  arg_key (listening (render chrome_effect_runs next m))
  = arg_key (rendered (render chrome_effect_runs next m)).
Proof.
  intros Hm. unfold render, chrome_effect_runs, same_key. simpl.
  destruct (String.eqb (arg_key (rendered m)) (arg_key next)) eqn:Hk;
    simpl; [| done].
  apply String.eqb_eq in Hk. congruence.
Qed.

Lemma chrome_render_keeps next m :
  arg_key next = arg_key (rendered m) →
  listening (render chrome_effect_runs next m) = listening m.
Proof.
  intros Hk. unfold render, chrome_effect_runs, same_key. simpl.
  by rewrite Hk, String.eqb_refl.
Qed.

Lemma expected_area_negb persist :
  ChromeStore.expected_area (negb persist) ≠ ChromeStore.expected_area persist.
Proof. by destruct persist. Qed.

End Renders.

(** X15. [useSimpleStore] over any sequence of renders: the listener
    registered on [window] is always the one for the key and the storage
    area of the latest render, as the effect lists both as dependencies. *)
Theorem browser_listener_follows_renders `{JSONHost} (a : Lifecycle.Args)
    (nexts : list Lifecycle.Args) :
  let m := Lifecycle.renders Lifecycle.browser_effect_runs nexts
             (Lifecycle.first_render a) in
  Lifecycle.browser_listener m
  = SimpleStore.handleStorageChange
      (Lifecycle.arg_key (Lifecycle.rendered m))
      (Lifecycle.arg_persist (Lifecycle.rendered m)).
Proof.
  intros m. unfold Lifecycle.browser_listener.
  enough (Lifecycle.listening m = Lifecycle.rendered m) as -> by done.
  subst m. unfold Lifecycle.renders.
  assert (Lifecycle.listening (Lifecycle.first_render a)
          = Lifecycle.rendered (Lifecycle.first_render a)) as Hfirst by done.
  revert Hfirst. generalize (Lifecycle.first_render a) as m.
  induction nexts as [| next nexts IH]; intros m Hm; simpl; [done |].
  apply IH. by apply browser_render_in_step.
Qed.

(** X16. [useChromeStore] over any sequence of renders: the listener
    registered on [onChanged] always filters on the key of the latest
    render. *)
Theorem chrome_listener_follows_key (a : Lifecycle.Args)
    (nexts : list Lifecycle.Args) :
  let m := Lifecycle.renders Lifecycle.chrome_effect_runs nexts
             (Lifecycle.first_render a) in
  Lifecycle.arg_key (Lifecycle.listening m)
  = Lifecycle.arg_key (Lifecycle.rendered m).
Proof.
  intros m. subst m. unfold Lifecycle.renders.
  assert (Lifecycle.arg_key (Lifecycle.listening (Lifecycle.first_render a))
          = Lifecycle.arg_key (Lifecycle.rendered (Lifecycle.first_render a)))
    as Hfirst by done.
  revert Hfirst. generalize (Lifecycle.first_render a) as m.
  induction nexts as [| next nexts IH]; intros m Hm; simpl; [done |].
  apply IH. by apply chrome_render_same_key.
Qed.

(** X17. [useChromeStore] over renders that keep the key: the effect lists
    [key] alone, so the listener stays the one of the first render and
    filters on that render's area whatever [persist] later renders pass.
    Once the latest render has the other persistence mode, the setter
    writes to an area whose change events the listener ignores. *)
Theorem chrome_listener_keeps_first_area `{JSONHost} (a : Lifecycle.Args)
    (nexts : list Lifecycle.Args) :
  Forall (λ next, Lifecycle.arg_key next = Lifecycle.arg_key a) nexts →
  let m := Lifecycle.renders Lifecycle.chrome_effect_runs nexts
             (Lifecycle.first_render a) in
  Lifecycle.chrome_listener m
  = ChromeStore.handleStorageChange
      (Lifecycle.arg_key a) (Lifecycle.arg_persist a)
  ∧ (Lifecycle.arg_persist (Lifecycle.rendered m) ≠ Lifecycle.arg_persist a →
     ∀ st valueAction c ev st',
       let c' := snd (Lifecycle.chrome_setter m st valueAction c) in
       is_Some (ChromeStore.storage
                  (Lifecycle.arg_persist (Lifecycle.rendered m)) c'
                !! Lifecycle.arg_key a)
       ∧ (ChromeStore.areaName ev
          = ChromeStore.expected_area
              (Lifecycle.arg_persist (Lifecycle.rendered m)) →
          Lifecycle.chrome_listener m ev st' = st')).
Proof.
  intros Hkeys m.
  assert (Lifecycle.listening m = a
          ∧ Lifecycle.arg_key (Lifecycle.rendered m) = Lifecycle.arg_key a)
    as [Hlistening Hkey].
  { subst m. unfold Lifecycle.renders.
    assert (Lifecycle.listening (Lifecycle.first_render a) = a
            ∧ Lifecycle.arg_key (Lifecycle.rendered (Lifecycle.first_render a))
              = Lifecycle.arg_key a) as Hfirst by done.
    revert Hfirst. generalize (Lifecycle.first_render a) as m.
    induction Hkeys as [| next nexts Hnext _ IH]; intros m [Hl Hk]; simpl;
      [done |].
    apply IH. split; [| done].
    rewrite chrome_render_keeps; [done | congruence]. }
  unfold Lifecycle.chrome_listener. rewrite Hlistening.
  split; [done |].
  intros Hflip st valueAction c ev st'. split.
  - unfold Lifecycle.chrome_setter, ChromeStore.useChromeStore. simpl.
    rewrite Hkey. eexists.
    apply (chrome_setter_item _ _ (ChromeStore.value st) valueAction st c).
  - intros Harea. apply handleStorageChange_other_area.
    rewrite Harea.
    destruct (Lifecycle.arg_persist (Lifecycle.rendered m)),
      (Lifecycle.arg_persist a); done.
Qed.

Lemma chrome_listener_keeps_first_area_witness :
  Lifecycle.chrome_listener (H := RefHost.host)
    (Lifecycle.renders Lifecycle.chrome_effect_runs
       [{| Lifecycle.arg_key := "n"; Lifecycle.arg_persist := true |}]
       (Lifecycle.first_render
          {| Lifecycle.arg_key := "n"; Lifecycle.arg_persist := false |}))
    (Scenarios.change_of "local" "n" (JStr "5"))
    (ChromeStore.initialState JNull)
  = ChromeStore.initialState JNull.
Proof.
  destruct (chrome_listener_keeps_first_area (H := RefHost.host)
              {| Lifecycle.arg_key := "n"; Lifecycle.arg_persist := false |}
              [{| Lifecycle.arg_key := "n"; Lifecycle.arg_persist := true |}])
    as [_ Hflip].
  { by repeat constructor. }
  assert (true ≠ false) as Hne by discriminate.
  destruct (Hflip Hne (ChromeStore.initialState JNull) (Literal JNull)
              Scenarios.no_chrome (Scenarios.change_of "local" "n" (JStr "5"))
              (ChromeStore.initialState JNull)) as [_ Hignored].
  apply Hignored. reflexivity.
Defined.

(** ** Sequential setter calls compose *)

(** X18. Any number of setter calls of [useSimpleStore] with one updater
    [f], each made through the render that follows the previous call: the
    value is [f] applied that many times to the starting value, and after
    at least one call the entry under the key is its serialisation. *)
Theorem browser_updates_compose `{JSONHost} (key : string)
    (persist : option bool) (f : Json → Json) (n : nat) (value : Json)
    (w : SimpleStore.Window) :
  let calls k :=
    Nat.iter k (SimpleStore.call_setter key persist (Updater f)) (value, w) in
  fst (calls n) = Nat.iter n f value
  ∧ SimpleStore.getItem
      (SimpleStore.storage (SimpleStore.persist_arg persist)
         (snd (calls (S n)))) key
    = Some (JSON_stringify (Nat.iter (S n) f value)).
Proof.
  intros calls.
  assert (∀ k, fst (calls k) = Nat.iter k f value) as Hvalue.
  { induction k as [| k IH]; [done |].
    subst calls. cbn beta in *. rewrite !Nat.iter_succ.
    unfold SimpleStore.call_setter at 1.
    unfold SimpleStore.useSimpleStore, SimpleStore.setStoredValue.
    cbn [fst snd]. by rewrite IH. }
  split; [apply Hvalue |].
  specialize (Hvalue n). subst calls. cbn beta in *. rewrite !Nat.iter_succ.
  unfold SimpleStore.call_setter at 1. unfold SimpleStore.useSimpleStore.
  cbn [fst snd]. rewrite setStoredValue_entry.
  unfold SimpleStore.setStoredValue. cbn [fst snd]. by rewrite Hvalue.
Qed.

(** X19. Any number of setter calls of [useChromeStore] with one updater
    [f], each made through the render that follows the previous call: the
    value is [f] applied that many times to the starting value, the loaded
    flag is as before, and after at least one call the item under the key
    is the serialisation of the value. *)
Theorem chrome_updates_compose `{JSONHost} (key : string)
    (persist : option bool) (f : JSValue → Json) (n : nat)
    (st : ChromeStore.State) (c : ChromeStore.Chrome) :
  let calls k :=
    History.run key persist (replicate k (History.Called (Updater f)))
      (st, c) in
  let values k := Nat.iter k (λ v, JData (f v)) (ChromeStore.value st) in
  ChromeStore.value (fst (calls n)) = values n
  ∧ ChromeStore.hasLoaded (fst (calls n)) = ChromeStore.hasLoaded st
  ∧ ChromeStore.storage (ChromeStore.persist_arg persist) (snd (calls (S n)))
      !! key
    = Some (JStr (JSON_stringify (f (values n)))).
Proof.
  intros calls values.
  assert (∀ k, calls (S k)
               = History.step key persist (History.Called (Updater f))
                   (calls k)) as Hstep.
  { intros k. subst calls. cbn beta. unfold History.run.
    by rewrite replicate_S_end, fold_left_app. }
  assert (∀ k, ChromeStore.value (fst (calls k)) = values k
               ∧ ChromeStore.hasLoaded (fst (calls k))
                 = ChromeStore.hasLoaded st) as Hstate.
  { induction k as [| k [IHv IHl]]; [done |].
    rewrite Hstep. subst values. cbn beta in *. rewrite Nat.iter_succ.
    unfold History.step, ChromeStore.useChromeStore,
      ChromeStore.setStoredValue, ChromeStore.setValue.
    cbn [fst snd ChromeStore.value ChromeStore.hasLoaded].
    by rewrite IHv, IHl. }
  split; [apply Hstate |]. split; [apply Hstate |].
  rewrite Hstep. unfold History.step, ChromeStore.useChromeStore.
  cbn [fst snd].
  rewrite (chrome_setter_item key _ _ (Updater f)).
  by destruct (Hstate n) as [-> _].
Qed.
